(** * The estimation pipeline of the AI Kanban service

    A shallow embedding of [src/services/ai_services.py] (the estimator:
    model invocation with retry, fence stripping, JSON normalisation, the two
    canned fallbacks) and of [src/ai_task_creator.py] (the two request
    handlers, the ticket number and the short title), followed by the
    properties of the specification stated against that embedding.

    Conventions of the embedding:
    - a Python [str] is a [string]; only the ASCII part of Python's string
      methods is modelled (white space, case mapping);
    - a Python value built from JSON is a [json]; a [dict] is a finite map
      [gmap string json]; number literals are integers;
    - a raised exception is a value of [result]; [str(e)] is [exn_msg];
    - the model endpoint, the random UUID and the ticket store are explicit
      arguments; the [json] library and the ticket-id service of the
      repository are interfaces ([JsonLib], [TicketIds]). *)

From Stdlib Require Import ZArith String Ascii List Bool Lia.
From stdpp Require Import gmap strings list fin_maps.

(* ===================================================================== *)
(** ** Python strings *)
(* ===================================================================== *)

Module Py.

(** The one-character strings that cannot be typed inside a literal. *)
Definition nl : string := String (ascii_of_nat 10) EmptyString.
Definition dquote : string := String (ascii_of_nat 34) EmptyString.
Definition backtick : ascii := ascii_of_nat 96.

(** [c.isspace()] on the ASCII range: TAB, LF, VT, FF, CR, the four
    separators FS GS RS US, and the blank. *)
Definition isspace (c : ascii) : bool :=
  let n := nat_of_ascii c in
  ((9 <=? n) && (n <=? 13)) || ((28 <=? n) && (n <=? 32)).

Definition isupper (c : ascii) : bool :=
  let n := nat_of_ascii c in (65 <=? n) && (n <=? 90).

Definition islower (c : ascii) : bool :=
  let n := nat_of_ascii c in (97 <=? n) && (n <=? 122).

Definition upper_char (c : ascii) : ascii :=
  if islower c then ascii_of_nat (nat_of_ascii c - 32) else c.

Definition lower_char (c : ascii) : ascii :=
  if isupper c then ascii_of_nat (nat_of_ascii c + 32) else c.

Fixpoint map_chars (f : ascii -> ascii) (s : string) : string :=
  match s with
  | EmptyString => EmptyString
  | String c s' => String (f c) (map_chars f s')
  end.

(** [s.upper()], [s.lower()], [s.capitalize()]. *)
Definition upper : string -> string := map_chars upper_char.
Definition lower : string -> string := map_chars lower_char.

Definition capitalize (s : string) : string :=
  match s with
  | EmptyString => EmptyString
  | String c s' => String (upper_char c) (lower s')
  end.

(** [s.replace("\n", " ")]. *)
Definition replace_newlines : string -> string :=
  map_chars (fun c => if Ascii.eqb c (ascii_of_nat 10) then " "%char else c).

(** [s.lstrip()], [s.rstrip()], [s.strip()]. *)
Fixpoint lstrip (s : string) : string :=
  match s with
  | EmptyString => EmptyString
  | String c s' => if isspace c then lstrip s' else s
  end.

Fixpoint rstrip (s : string) : string :=
  match s with
  | EmptyString => EmptyString
  | String c s' =>
      match rstrip s' with
      | EmptyString => if isspace c then EmptyString else String c EmptyString
      | r => String c r
      end
  end.

Definition strip (s : string) : string := rstrip (lstrip s).

(** [s.startswith(p)], [s[n:]], [s[:n]], [s.endswith(p)], [s[:-n]]. *)
Definition startswith (p s : string) : bool := String.prefix p s.

Fixpoint drop (n : nat) (s : string) : string :=
  match n, s with
  | S n', String _ s' => drop n' s'
  | _, _ => s
  end.

Fixpoint take (n : nat) (s : string) : string :=
  match n, s with
  | S n', String c s' => String c (take n' s')
  | _, _ => EmptyString
  end.

Definition endswith (p s : string) : bool :=
  (String.length p <=? String.length s)
  && String.eqb (drop (String.length s - String.length p) s) p.

Definition drop_last (n : nat) (s : string) : string :=
  take (String.length s - n) s.

(** [p in s] for strings. *)
Fixpoint contains (p s : string) : bool :=
  String.prefix p s
  || match s with
     | EmptyString => false
     | String _ s' => contains p s'
     end.

(** [s.split()]: the maximal runs of non-blank characters. *)
Definition word_ends_before (s : string) : bool :=
  match s with
  | EmptyString => true
  | String c _ => isspace c
  end.

Fixpoint split (s : string) : list string :=
  match s with
  | EmptyString => []
  | String c s' =>
      let ws := split s' in
      if isspace c then ws
      else if word_ends_before s' then String c EmptyString :: ws
      else match ws with
           | w :: ws' => String c w :: ws'
           | [] => [String c EmptyString]
           end
  end.

(** [sep.join(l)]. *)
Fixpoint join (sep : string) (l : list string) : string :=
  match l with
  | [] => EmptyString
  | [w] => w
  | w :: ws => w +:+ sep +:+ join sep ws
  end.

(** Every character of [s] satisfies [p]. *)
Fixpoint all_chars (p : ascii -> bool) (s : string) : bool :=
  match s with
  | EmptyString => true
  | String c s' => p c && all_chars p s'
  end.

(** A text of ASCII characters only: on such a text [isspace], [split],
    [strip], [lower], [upper] and [capitalize] above are the methods of
    Python, which treat the white space and the letters beyond ASCII as
    well. *)
Definition is_ascii (s : string) : bool :=
  all_chars (fun c => nat_of_ascii c <? 128) s.

(** [s[0]] and [s[-1]], when the string has them. *)
Definition first_char (s : string) : option ascii :=
  match s with
  | EmptyString => None
  | String c _ => Some c
  end.

Fixpoint last_char (s : string) : option ascii :=
  match s with
  | EmptyString => None
  | String c EmptyString => Some c
  | String _ s' => last_char s'
  end.

(** Truth value of a string: [not s] is [true] exactly on the empty one. *)
Definition nonempty (s : string) : bool :=
  match s with EmptyString => false | _ => true end.

End Py.

(* ===================================================================== *)
(** ** Python values, dictionaries and exceptions *)
(* ===================================================================== *)

(** A value decoded from JSON; objects are dictionaries with string keys. *)
#[warnings="-register-all"]
Inductive json : Type :=
| JNull
| JBool (b : bool)
| JNum (n : Z)
| JStr (s : string)
| JArr (l : list json)
| JObj (o : gmap string json).

Abbreviation dict := (gmap string json).

Module Value.
Import Py.

(** [bool(v)], as used by [if v], [not v] and [a or b]. *)
Definition truthy (v : json) : bool :=
  match v with
  | JNull => false
  | JBool b => b
  | JNum n => negb (n =? 0)%Z
  | JStr s => nonempty s
  | JArr l => match l with [] => false | _ => true end
  | JObj o => match map_to_list o with [] => false | _ => true end
  end.

(** [type(v).__name__]. *)
Definition type_name (v : json) : string :=
  match v with
  | JNull => "NoneType"
  | JBool _ => "bool"
  | JNum _ => "int"
  | JStr _ => "str"
  | JArr _ => "list"
  | JObj _ => "dict"
  end.

(** [isinstance(v, str)]. *)
Definition is_str (v : json) : bool :=
  match v with JStr _ => true | _ => false end.

(** [d.get(k, dflt)] and [d.get(k)]. *)
Definition get_default (k : string) (dflt : json) (d : dict) : json :=
  default dflt (d !! k).

Definition get (k : string) (d : dict) : json := get_default k JNull d.

(** [{**base, **over}]: the keys of [over] win. *)
Definition merge_over (base over : dict) : dict := over ∪ base.

(** A list of strings as a JSON array. *)
Definition strings (l : list string) : json := JArr (JStr <$> l).

(** A raised exception: its class and [str(e)]. *)
Record exn : Type := Exn { exn_class : string; exn_msg : string }.

Inductive result (A : Type) : Type :=
| Ok (a : A)
| Raise (e : exn).
Arguments Ok {A} a.
Arguments Raise {A} e.

Definition bind {A B : Type} (r : result A) (k : A -> result B) : result B :=
  match r with
  | Ok a => k a
  | Raise e => Raise e
  end.

(** [try: r  except Exception as e: h e]. *)
Definition try_except {A : Type} (r : result A) (h : exn -> A) : A :=
  match r with
  | Ok a => a
  | Raise e => h e
  end.

Definition AttributeError (v : json) (attr : string) : exn :=
  Exn "AttributeError"
      ("'" +:+ type_name v +:+ "' object has no attribute '" +:+ attr +:+ "'").

Definition TypeError (msg : string) : exn := Exn "TypeError" msg.

End Value.

Notation "x <- c ;; k" := (Value.bind c (fun x => k))
  (at level 100, c at next level, right associativity).

(** The [json] library: [json_loads s] is [None] when [json.loads(s)] raises
    [JSONDecodeError]. *)
Class JsonLib := json_loads : string -> option json.

(** The model endpoint, [client.models.generate_content]: the outcome of the
    call number [n] (from 0) made for a task, either the [text] of the
    response, which the client library leaves at [None] for a reply
    without text, or the exception raised.  The prompt is a fixed template
    around the task description, so the task stands for it. *)
Definition service : Type := nat -> string -> Value.result (option string).

(* ===================================================================== *)
(** ** [services/ai_services.py] *)
(* ===================================================================== *)

Module AIServices.
Import Py Value.

Definition max_retries : nat := 3.
Definition initial_retry_delay : Z := 2.

(** ["503" in str(e) or "UNAVAILABLE" in str(e)]. *)
Definition is_unavailable (e : exn) : bool :=
  contains "503" (exn_msg e) || contains "UNAVAILABLE" (exn_msg e).

(** The body of [for attempt in range(max_retries)] over the attempts that
    remain; [slept] collects the arguments of [time.sleep].  Leaving the
    loop without [break] would leave [response] unbound. *)
Fixpoint retry_loop (svc : service) (task : string) (attempts : list nat)
    (retry_delay : Z) (slept : list Z) : result (option string) * list Z :=
  match attempts with
  | [] =>
      (Raise (Exn "UnboundLocalError"
         "cannot access local variable 'response' where it is not associated with a value"),
       slept)
  | attempt :: rest =>
      match svc attempt task with
      | Ok response => (Ok response, slept)
      | Raise e =>
          if is_unavailable e then
            if attempt <? max_retries - 1 then
              retry_loop svc task rest (retry_delay * 2) (slept ++ [retry_delay])
            else (Raise e, slept)
          else (Raise e, slept)
      end
  end.

(** Lines 119-141: the call of the model with its retries. *)
Definition generate_with_retry (svc : service) (task : string)
    : result (option string) * list Z :=
  retry_loop svc task (seq 0 max_retries) initial_retry_delay [].

(** Lines 148-156: the three fence tests, then [strip]. *)
Definition strip_fences (response_text : string) : string :=
  let t1 := if startswith "```json" response_text then drop 7 response_text
            else response_text in
  let t2 := if startswith "```" t1 then drop 3 t1 else t1 in
  let t3 := if endswith "```" t2 then drop_last 3 t2 else t2 in
  strip t3.

(** Lines 161-164 on a dictionary. *)
Definition wrap_required_access (estimate_data : dict) : dict :=
  match estimate_data !! "required_access" with
  | Some (JStr s) => <["required_access" := JArr [JStr s]]> estimate_data
  | _ => estimate_data
  end.

(** Lines 168-172. *)
Definition success_estimate (estimate_data : dict) : dict :=
  merge_over
    (<["success" := JBool true]>
       (<["title" := get_default "title" (JStr EmptyString) estimate_data]> ∅))
    estimate_data.

(** Lines 161-172 on whatever [json.loads] returned: only a dictionary
    supports [in], item assignment and [.get] together. *)
Definition normalise_parsed (estimate_data : json) : result dict :=
  match estimate_data with
  | JObj o => Ok (success_estimate (wrap_required_access o))
  | JArr l =>
      if existsb (fun x => match x with
                           | JStr s => String.eqb s "required_access"
                           | _ => false
                           end) l
      then Raise (TypeError "list indices must be integers or slices, not str")
      else Raise (AttributeError estimate_data "get")
  | JStr s =>
      if contains "required_access" s
      then Raise (TypeError "string indices must be integers, not 'str'")
      else Raise (AttributeError estimate_data "get")
  | _ =>
      Raise (TypeError ("argument of type '" +:+ type_name estimate_data
                        +:+ "' is not iterable"))
  end.

Definition lines (l : list string) : string := join nl l.

Definition indent : string := "                ".

(** Lines 177-207: the estimate returned when the reply is not JSON. *)
Definition fallback_reasoning (task_description : string) : string :=
  lines
    [ "Phase 1: Technical Breakdown";
      indent +:+ "Overview: " +:+ take 200 task_description
        +:+ ". Standard development workflow with modern tech stack. Requires environment setup, implementation, and deployment phases.";
      EmptyString;
      indent +:+ "Phase 1: Requirements Analysis and Setup";
      indent +:+ "- Review task requirements and define scope";
      indent +:+ "- Set up development environment and tools";
      indent +:+ "- Create project structure and initial configuration";
      EmptyString;
      indent +:+ "Phase 2: Core Implementation";
      indent +:+ "- Implement main functionality according to specifications";
      indent +:+ "- Write comprehensive unit and integration tests";
      indent +:+ "- Conduct code review and refactoring";
      EmptyString;
      indent +:+ "Phase 3: Testing and Deployment";
      indent +:+ "- Perform end-to-end testing in staging environment";
      indent +:+ "- Create deployment documentation and runbooks";
      indent +:+ "- Deploy to production with monitoring setup" ].

Definition fallback_estimate (task_description : string) : dict :=
  list_to_map
    [ ("success", JBool true);
      ("title", JStr "Task Needs Analysis");
      ("estimated_time", JStr "1 week");
      ("priority", JStr "Medium");
      ("complexity_level", JStr "Medium");
      ("dependencies", strings ["Initial project setup"]);
      ("required_access",
        strings [ "Development Environment Access";
                  "Version Control System (GitHub/GitLab)";
                  "Testing Environment" ]);
      ("suggested_labels", strings ["feature"; "development"]);
      ("reasoning", JStr (fallback_reasoning task_description)) ].

(** Lines 209-239: the estimate returned when anything was raised. *)
Definition failure_reasoning : string :=
  lines
    [ "Phase 1: Technical Breakdown";
      "Overview: AI estimation service temporarily unavailable. Manual technical review required to assess scope, dependencies, and implementation approach.";
      EmptyString;
      "Phase 1: Requirements Gathering";
      "- Conduct stakeholder meetings to clarify requirements";
      "- Document technical specifications and constraints";
      "- Identify system dependencies and integration points";
      EmptyString;
      "Phase 2: Technical Planning and Design";
      "- Create detailed system architecture design";
      "- Define API contracts and data models";
      "- Estimate resource requirements and timeline";
      EmptyString;
      "Phase 3: Implementation Strategy";
      "- Break down work into manageable sprints";
      "- Assign team members and allocate resources";
      "- Set up monitoring and quality assurance processes" ].

Definition failure_estimate (e : exn) : dict :=
  list_to_map
    [ ("success", JBool false);
      ("error", JStr ("AI Generation failed: " +:+ exn_msg e));
      ("title", JStr "Manual Review Required");
      ("estimated_time", JStr "Unknown");
      ("priority", JStr "Medium");
      ("complexity_level", JStr "Medium");
      ("dependencies", strings ["Requirements gathering needed"]);
      ("required_access", strings ["To be determined"]);
      ("suggested_labels", strings ["needs-analysis"]);
      ("reasoning", JStr failure_reasoning) ].

(** Lines 143-207: from the response of the model to the estimate; the
    inner [try] catches [JSONDecodeError] only. *)
Definition normalise_response `{JsonLib} (task_description : string)
    (response : option string) : result dict :=
  match response with
  | None => Raise (AttributeError JNull "strip")
  | Some text =>
      let response_text := strip_fences (strip text) in
      match json_loads response_text with
      | Some estimate_data => normalise_parsed estimate_data
      | None => Ok (fallback_estimate task_description)
      end
  end.

(** [AIEstimator.estimate_task]: the estimate, and the delays slept. *)
Definition estimate_task `{JsonLib} (svc : service)
    (task_description : string) : dict * list Z :=
  let '(outcome, slept) := generate_with_retry svc task_description in
  (try_except (response <- outcome ;; normalise_response task_description response)
              failure_estimate,
   slept).

End AIServices.

(* ===================================================================== *)
(** ** [ai_task_creator.py] *)
(* ===================================================================== *)

(** The ticket-id service, [services.estimation_services.TicketEstimator]. *)
Class TicketIds := content_hash : string -> string.

(** A [KanbanTicket] as [create_final_ticket] builds it: the two fields the
    handler fixes itself are strings, the others carry whatever the request
    held. *)
Record ticket : Type := KanbanTicket {
  ticket_id : json;
  ticket_number : json;
  title : json;
  description : json;
  status : string;
  priority : string;
  estimated_time : json;
  tags : json;
  access_required : json;
  dependencies : json
}.

(** The ticket store behind [models.db]: whether [db.session.commit()]
    raises for a new ticket given the rows already stored, and the
    [to_dict] rendering of a row. *)
Class TicketStore := {
  commit_error : list ticket -> ticket -> option Value.exn;
  to_dict : ticket -> json
}.

(** What [jsonify(...)], possibly with a status code, sends back. *)
Record response : Type := Response { http_status : Z; body : json }.

Module AITaskCreator.
Import Py Value AIServices.

(** Lines 23-34: the answer of the estimator that stands in when
    [services.ai_services] cannot be imported; it ignores the task. *)
Definition stub_estimate : dict :=
  list_to_map
    [ ("success", JBool true);
      ("estimated_time", JStr "2 days");
      ("priority", JStr "Medium");
      ("complexity_level", JStr "Medium");
      ("dependencies", strings ["Initial setup"]);
      ("required_access", strings ["Backend"]);
      ("suggested_labels", strings ["feature"]);
      ("reasoning", JStr "Basic implementation (FALLBACK RESPONSE)") ].

(** Modelled from the spec: [TicketEstimator._generate_ticket_id], whose
    module is not part of the sources at hand, is "a deterministic
    derivation from the task-description text", "a stable content hash":
    a function of the text and of nothing else, here the hash of the
    [TicketIds] interface. *)
Definition _generate_ticket_id `{TicketIds} (task_description : string) : string :=
  content_hash task_description.

(** [str(uuid.UUID(int=u))]: 32 lower-case hexadecimal digits of the 128-bit
    value, hyphenated 8-4-4-4-12. *)
Definition hex_digit (n : Z) : ascii :=
  if (n <? 10)%Z then ascii_of_nat (48 + Z.to_nat n)
  else ascii_of_nat (87 + Z.to_nat n).

Fixpoint hex (digits : nat) (n : Z) : string :=
  match digits with
  | O => EmptyString
  | S d => hex d (n / 16) +:+ String (hex_digit (n mod 16)) EmptyString
  end.

Definition str_uuid (u : Z) : string :=
  let h := hex 32 u in
  take 8 h +:+ "-" +:+ take 4 (drop 8 h) +:+ "-" +:+ take 4 (drop 12 h)
    +:+ "-" +:+ take 4 (drop 16 h) +:+ "-" +:+ drop 20 h.

(** [generate_ticket_number], for the value [u] drawn by [uuid.uuid4()]. *)
Definition generate_ticket_number (u : Z) : string :=
  "TKT-" +:+ upper (take 8 (str_uuid u)).

(** [v.get(k, dflt)] and [v.<method>()] on a value that may be no
    dictionary, no string. *)
Definition obj_get (v : json) (k : string) (dflt : json) : result json :=
  match v with
  | JObj o => Ok (get_default k dflt o)
  | _ => Raise (AttributeError v "get")
  end.

Definition as_str (v : json) (method : string) : result string :=
  match v with
  | JStr s => Ok s
  | _ => Raise (AttributeError v method)
  end.

(** [v[:100]]: strings and lists can be sliced. *)
Definition check_sliceable (v : json) : result unit :=
  match v with
  | JStr _ | JArr _ => Ok tt
  | JObj _ => Raise (TypeError "unhashable type: 'slice'")
  | _ => Raise (TypeError ("'" +:+ type_name v +:+ "' object is not subscriptable"))
  end.

(** [if isinstance(x, str): x = [x]]. *)
Definition wrap_str (x : json) : json :=
  match x with
  | JStr s => JArr [JStr s]
  | _ => x
  end.

(** [generate_short_title(task, max_words)]. *)
Definition generate_short_title (task : json) (max_words : nat) : result string :=
  if negb (truthy task) then Ok "New Ticket"
  else
    task <- as_str task "replace" ;;
    let task := strip (replace_newlines task) in
    let words := split task in
    let short_title := join " " (firstn max_words words) in
    Ok (capitalize short_title).

(** Lines 101-107: the title chosen by the word-count policy. *)
Definition resolve_title (raw_title : json) (task_description : string)
    : result string :=
  match raw_title with
  | JStr s =>
      let n := length (split s) in
      if (3 <=? n) && (n <=? 6) then Ok (strip s)
      else generate_short_title (JStr task_description) 6
  | _ => generate_short_title (JStr task_description) 6
  end.

Definition error_response (code : Z) (msg : json) : response :=
  Response code (JObj (<["success" := JBool false]> (<["error" := msg]> ∅))).

(** Lines 117-125. *)
Definition estimate_of (ai_response : dict) (dependencies access_required tags : json)
    : dict :=
  list_to_map
    [ ("estimated_time", get_default "estimated_time" (JStr "Unknown") ai_response);
      ("priority", get_default "priority" (JStr "Medium") ai_response);
      ("complexity_level", get_default "complexity_level" (JStr "Medium") ai_response);
      ("dependencies", dependencies);
      ("required_access", access_required);
      ("suggested_labels", tags);
      ("reasoning", get_default "reasoning" (JStr EmptyString) ai_response) ].

(** Lines 110-126. *)
Definition response_data (ticket_id ticket_number task_description : string)
    (ai_response estimate : dict) : dict :=
  list_to_map
    [ ("success", JBool true);
      ("ticket_id", JStr ticket_id);
      ("ticket_number", JStr ticket_number);
      ("task", JStr task_description);
      ("title", get_default "title" (JStr task_description) ai_response);
      ("estimate", JObj estimate) ].

(** Lines 83-135: the branch taken when [ai_response.get('success')] holds.
    The title of lines 101-107 is computed and not used afterwards. *)
Definition success_response `{TicketIds} (u : Z) (task_description : string)
    (ai_response : dict) : result response :=
  let ticket_id := _generate_ticket_id task_description in
  let ticket_number := generate_ticket_number u in
  let tags := wrap_str (get_default "suggested_labels" (JArr []) ai_response) in
  let access_required := wrap_str (get_default "required_access" (JArr []) ai_response) in
  let dependencies := wrap_str (get_default "dependencies" (JArr []) ai_response) in
  let raw_title := get "title" ai_response in
  title <- resolve_title raw_title task_description ;;
  Ok (Response 200
        (JObj (response_data ticket_id ticket_number task_description ai_response
                 (estimate_of ai_response dependencies access_required tags)))).

(** Lines 71-142: what the handler does with the estimate it received. *)
Definition respond `{TicketIds} (u : Z) (task_description : string)
    (ai_response : dict) : result response :=
  _ <- check_sliceable (get_default "reasoning" (JStr EmptyString) ai_response) ;;
  if truthy (get "success" ai_response) then
    success_response u task_description ai_response
  else
    Ok (error_response 500
          (get_default "error" (JStr "AI generation failed") ai_response)).

(** [get_ai_estimate], the handler of [POST /api/estimate]: [data] is the
    request body, [u] the UUID drawn for the ticket number.  The handler
    has no statement on the store. *)
Definition get_ai_estimate `{JsonLib} `{TicketIds} (svc : service) (u : Z)
    (data : json) (db : list ticket) : response * list ticket :=
  (try_except
     (task <- obj_get data "task" (JStr EmptyString) ;;
      task <- as_str task "strip" ;;
      let task_description := strip task in
      if negb (nonempty task_description) then
        Ok (error_response 400 (JStr "Task description is required"))
      else
        let ai_response := fst (estimate_task svc task_description) in
        respond u task_description ai_response)
     (fun e => error_response 500 (JStr (exn_msg e))),
   db).

(** Lines 165-176: the keyword arguments of [KanbanTicket(...)], in order. *)
Definition new_ticket (u : Z) (data : json) : result ticket :=
  ticket_id <- obj_get data "ticket_id" JNull ;;
  supplied <- obj_get data "ticket_number" JNull ;;
  let ticket_number :=
    if truthy supplied then supplied else JStr (generate_ticket_number u) in
  task <- obj_get data "task" (JStr "New Ticket") ;;
  short_title <- generate_short_title task 6 ;;
  title <- obj_get data "title" (JStr short_title) ;;
  description <- obj_get data "edited_description" (JStr EmptyString) ;;
  edited_priority <- obj_get data "edited_priority" (JStr "medium") ;;
  priority <- as_str edited_priority "lower" ;;
  estimate <- obj_get data "estimate" (JObj ∅) ;;
  estimated_time <- obj_get estimate "estimated_time" (JStr "TBD") ;;
  estimate <- obj_get data "estimate" (JObj ∅) ;;
  tags <- obj_get estimate "suggested_labels" (JArr []) ;;
  estimate <- obj_get data "estimate" (JObj ∅) ;;
  access_required <- obj_get estimate "required_access" (JArr []) ;;
  estimate <- obj_get data "estimate" (JObj ∅) ;;
  dependencies <- obj_get estimate "dependencies" (JArr []) ;;
  Ok (KanbanTicket ticket_id ticket_number title description "new"
        (lower priority) estimated_time tags access_required dependencies).

(** [create_final_ticket], the handler of [POST /api/create-ticket]: a
    ticket that cannot be built or committed is rolled back. *)
Definition create_final_ticket `{TicketStore} (u : Z) (data : json)
    (db : list ticket) : response * list ticket :=
  match new_ticket u data with
  | Raise e => (error_response 500 (JStr (exn_msg e)), db)
  | Ok t =>
      match commit_error db t with
      | Some e => (error_response 500 (JStr (exn_msg e)), db)
      | None =>
          (Response 200
             (JObj (<["success" := JBool true]> (<["ticket" := to_dict t]> ∅))),
           db ++ [t])
      end
  end.

End AITaskCreator.

(* ===================================================================== *)
(** ** A reader for JSON texts *)
(* ===================================================================== *)

(** The properties below hold for every [JsonLib].  To run the pipeline on
    concrete replies, [MiniJson] reads the JSON texts without fractions,
    exponents and [\u] escapes: objects (the last of two equal keys wins, as
    in Python), arrays, strings, integers and the three literals. *)
Module MiniJson.
Import Py.

Definition is_json_space (c : ascii) : bool :=
  let n := nat_of_ascii c in
  (n =? 32) || (n =? 9) || (n =? 10) || (n =? 13).

Fixpoint skip_ws (s : string) : string :=
  match s with
  | String c s' => if is_json_space c then skip_ws s' else s
  | EmptyString => EmptyString
  end.

Definition is_digit (c : ascii) : bool :=
  let n := nat_of_ascii c in (48 <=? n) && (n <=? 57).

Definition digit_value (c : ascii) : Z := Z.of_nat (nat_of_ascii c - 48).

(** The digits at the head of [s], read as a number continuing [acc]. *)
Fixpoint digits (acc : Z) (s : string) : Z * string :=
  match s with
  | String c s' =>
      if is_digit c then digits (10 * acc + digit_value c) s' else (acc, s)
  | EmptyString => (acc, EmptyString)
  end.

Definition starts_fraction (s : string) : bool :=
  match s with
  | String c _ => Ascii.eqb c "." || Ascii.eqb c "e" || Ascii.eqb c "E"
  | EmptyString => false
  end.

(** An integer literal: [0], or a non-zero digit and more digits. *)
Definition unsigned (s : string) : option (Z * string) :=
  match s with
  | String c s' =>
      if Ascii.eqb c "0" then
        match s' with
        | String d _ =>
            if is_digit d || starts_fraction s' then None else Some (0%Z, s')
        | EmptyString => Some (0%Z, s')
        end
      else if is_digit c then
        let '(n, rest) := digits (digit_value c) s' in
        if starts_fraction rest then None else Some (n, rest)
      else None
  | EmptyString => None
  end.

Definition unescape (c : ascii) : option ascii :=
  let n := nat_of_ascii c in
  if (n =? 34) || (n =? 92) || (n =? 47) then Some c
  else if n =? 110 then Some (ascii_of_nat 10)
  else if n =? 116 then Some (ascii_of_nat 9)
  else if n =? 114 then Some (ascii_of_nat 13)
  else if n =? 98 then Some (ascii_of_nat 8)
  else if n =? 102 then Some (ascii_of_nat 12)
  else None.

(** The characters of a string literal after its opening quote. *)
Fixpoint chars (s : string) : option (string * string) :=
  match s with
  | EmptyString => None
  | String c s' =>
      let n := nat_of_ascii c in
      if n =? 34 then Some (EmptyString, s')
      else if n <? 32 then None
      else if n =? 92 then
        match s' with
        | String e s'' =>
            match unescape e, chars s'' with
            | Some c', Some (body, rest) => Some (String c' body, rest)
            | _, _ => None
            end
        | EmptyString => None
        end
      else
        match chars s' with
        | Some (body, rest) => Some (String c body, rest)
        | None => None
        end
  end.

Definition quoted (s : string) : option (string * string) :=
  match s with
  | String c s' => if nat_of_ascii c =? 34 then chars s' else None
  | EmptyString => None
  end.

Section Nested.
(** The reader of the values nested one level deeper. *)
Variable value : string -> option (json * string).

(** The elements after [[] or after a comma, up to the closing bracket. *)
Fixpoint elements (n : nat) (s : string) : option (list json * string) :=
  match n with
  | O => None
  | S n' =>
      match value s with
      | Some (v, rest) =>
          match skip_ws rest with
          | String c rest' =>
              if Ascii.eqb c "," then
                match elements n' rest' with
                | Some (vs, r) => Some (v :: vs, r)
                | None => None
                end
              else if Ascii.eqb c "]" then Some ([v], rest')
              else None
          | EmptyString => None
          end
      | None => None
      end
  end.

(** The members after [{] or after a comma, up to the closing brace. *)
Fixpoint members (n : nat) (s : string)
    : option (list (string * json) * string) :=
  match n with
  | O => None
  | S n' =>
      match quoted (skip_ws s) with
      | Some (k, rest) =>
          match skip_ws rest with
          | String colon rest' =>
              if Ascii.eqb colon ":" then
                match value rest' with
                | Some (v, rest'') =>
                    match skip_ws rest'' with
                    | String c r =>
                        if Ascii.eqb c "," then
                          match members n' r with
                          | Some (kvs, r') => Some ((k, v) :: kvs, r')
                          | None => None
                          end
                        else if Ascii.eqb c "}" then Some ([(k, v)], r)
                        else None
                    | EmptyString => None
                    end
                | None => None
                end
              else None
          | EmptyString => None
          end
      | None => None
      end
  end.
End Nested.

Definition literal (word : string) (v : json) (s : string)
    : option (json * string) :=
  if startswith word s then Some (v, drop (String.length word) s) else None.

Fixpoint value (fuel : nat) (s : string) : option (json * string) :=
  match fuel with
  | O => None
  | S fuel' =>
      let s := skip_ws s in
      match s with
      | EmptyString => None
      | String c rest =>
          if Ascii.eqb c "{" then
            match skip_ws rest with
            | String c' r =>
                if Ascii.eqb c' "}" then Some (JObj ∅, r)
                else
                  match members (value fuel') (String.length s) rest with
                  | Some (kvs, r') => Some (JObj (list_to_map (reverse kvs)), r')
                  | None => None
                  end
            | EmptyString => None
            end
          else if Ascii.eqb c "[" then
            match skip_ws rest with
            | String c' r =>
                if Ascii.eqb c' "]" then Some (JArr [], r)
                else
                  match elements (value fuel') (String.length s) rest with
                  | Some (vs, r') => Some (JArr vs, r')
                  | None => None
                  end
            | EmptyString => None
            end
          else if nat_of_ascii c =? 34 then
            match chars rest with
            | Some (str, r) => Some (JStr str, r)
            | None => None
            end
          else if Ascii.eqb c "-" then
            match unsigned rest with
            | Some (n, r) => Some (JNum (- n), r)
            | None => None
            end
          else if is_digit c then
            match unsigned s with
            | Some (n, r) => Some (JNum n, r)
            | None => None
            end
          else if Ascii.eqb c "t" then literal "true" (JBool true) s
          else if Ascii.eqb c "f" then literal "false" (JBool false) s
          else if Ascii.eqb c "n" then literal "null" JNull s
          else None
      end
  end.

(** A whole text: one value and nothing but white space after it. *)
Definition loads (s : string) : option json :=
  match value (S (String.length s)) s with
  | Some (v, rest) =>
      match skip_ws rest with
      | EmptyString => Some v
      | _ => None
      end
  | None => None
  end.

End MiniJson.

(* ===================================================================== *)
(** ** The shapes the specification speaks of *)
(* ===================================================================== *)

Module Shape.
Import Py Value.

(** The fields of an Estimate, and those that are sequences of strings. *)
Definition estimate_fields : list string :=
  [ "title"; "estimated_time"; "priority"; "complexity_level";
    "dependencies"; "required_access"; "suggested_labels"; "reasoning" ].

Definition array_fields : list string :=
  [ "dependencies"; "required_access"; "suggested_labels" ].

Definition has_field (d : dict) (k : string) : bool :=
  match d !! k with Some _ => true | None => false end.

Definition is_string_array (v : json) : bool :=
  match v with
  | JArr l => forallb is_str l
  | _ => false
  end.

Definition string_array_at (d : dict) (k : string) : bool :=
  match d !! k with Some v => is_string_array v | None => false end.

(** Every field present, the three sequences arrays of strings. *)
Definition well_shaped (d : dict) : bool :=
  forallb (has_field d) estimate_fields
  && forallb (string_array_at d) array_fields.

(** The Estimate a caller of the handler receives: the [estimate] object
    of the response together with its [title]. *)
Definition emitted_estimate (r : response) : option dict :=
  match body r with
  | JObj o =>
      match o !! "estimate" with
      | Some (JObj e) =>
          Some (match o !! "title" with
                | Some t => <["title" := t]> e
                | None => e
                end)
      | _ => None
      end
  | _ => None
  end.

Definition emitted_field (r : response) (k : string) : option json :=
  match emitted_estimate r with
  | Some d => d !! k
  | None => None
  end.

(** The layouts of a reply around its JSON text: inside a [json] fence,
    inside a bare fence, or on its own, with white space [ws1] .. [ws4]
    before, between and after. *)
Inductive fence : Type := JsonFence | BareFence | NoFence.

Definition opening (f : fence) : string :=
  match f with
  | JsonFence => "```json"
  | BareFence => "```"
  | NoFence => EmptyString
  end.

Definition closing (f : fence) : string :=
  match f with
  | NoFence => EmptyString
  | _ => "```"
  end.

Definition laid_out (f : fence) (ws1 ws2 body ws3 ws4 : string) : string :=
  ws1 +:+ opening f +:+ ws2 +:+ body +:+ ws3 +:+ closing f +:+ ws4.

Definition blank (ws : string) : bool := all_chars isspace ws.

(** The ends of a JSON text: it begins with a brace, a bracket, a quote, a
    sign, a digit or a letter of [true], [false], [null], and ends with a
    brace, a bracket, a quote, a digit or a letter; so neither end is
    white space or a backtick, and the text does not begin like [json]. *)
Definition plain_ends (body : string) : bool :=
  match first_char body, last_char body with
  | Some a, Some b =>
      negb (isspace a) && negb (Ascii.eqb a backtick) && negb (Ascii.eqb a "j")
      && negb (isspace b) && negb (Ascii.eqb b backtick)
  | _, _ => false
  end.

(** The first [k] delays of a backoff that starts at [d] and doubles. *)
Fixpoint backoff (d : Z) (k : nat) : list Z :=
  match k with
  | O => []
  | S k' => d :: backoff (d * 2) k'
  end.

(** Each delay is strictly greater than the one before. *)
Fixpoint increasing (l : list Z) : Prop :=
  match l with
  | x :: (y :: _) as l' => (x < y)%Z /\ increasing l'
  | _ => True
  end.

(** The calls [0 .. k-1] of the endpoint all failed on unavailability. *)
Definition unavailable_before (svc : service) (task : string) (k : nat) : Prop :=
  forall i, i < k ->
    exists e, svc i task = Raise e /\ AIServices.is_unavailable e = true.

(** Call [k] ends the invocation in failure [e]: the failure is of
    another kind, or it is the last attempt allowed. *)
Definition invocation_fails (svc : service) (task : string) (e : exn) : Prop :=
  exists k, k < AIServices.max_retries
    /\ unavailable_before svc task k
    /\ svc k task = Raise e
    /\ (AIServices.is_unavailable e = false \/ k = AIServices.max_retries - 1).

(** The estimate object of a 200 response, from the answer of the
    estimator (lines 89-99 and 117-125). *)
Definition sent_estimate (ai_response : dict) : dict :=
  AITaskCreator.estimate_of ai_response
    (AITaskCreator.wrap_str (get_default "dependencies" (JArr []) ai_response))
    (AITaskCreator.wrap_str (get_default "required_access" (JArr []) ai_response))
    (AITaskCreator.wrap_str (get_default "suggested_labels" (JArr []) ai_response)).

(** A word: not empty and without white space. *)
Definition is_word (w : string) : bool :=
  nonempty w && all_chars (fun c => negb (isspace c)) w.

(** The words of a short title made from the words [ws]: the first
    capitalized, the others lower-cased. *)
Definition title_words (ws : list string) : list string :=
  match ws with
  | [] => []
  | w :: ws' => capitalize w :: map lower ws'
  end.

(** The values that [v[:100]] accepts. *)
Definition sliceable (v : json) : bool :=
  match v with
  | JStr _ | JArr _ => true
  | _ => false
  end.

(** The time slept in all. *)
Definition total (l : list Z) : Z := fold_right Z.add 0%Z l.

(** [TKT-] and eight characters out of [0-9A-F]. *)
Definition is_upper_hex (c : ascii) : bool :=
  let n := nat_of_ascii c in
  ((48 <=? n) && (n <=? 57)) || ((65 <=? n) && (n <=? 70)).

Definition is_lower_hex (c : ascii) : bool :=
  let n := nat_of_ascii c in
  ((48 <=? n) && (n <=? 57)) || ((97 <=? n) && (n <=? 102)).

Definition matches_ticket_format (s : string) : bool :=
  startswith "TKT-" s
  && (String.length s =? 12)
  && all_chars is_upper_hex (drop 4 s).

Definition is_ticket_number (v : json) : bool :=
  match v with
  | JStr s => matches_ticket_format s
  | _ => false
  end.

(** No upper-case ASCII letter is left in [s]. *)
Definition is_lower_cased (s : string) : bool :=
  all_chars (fun c => negb (isupper c)) s.

(** The words of a title. *)
Definition word_count (s : string) : nat := length (split s).

End Shape.

(* ===================================================================== *)
(** ** Replies, endpoints and requests to run the pipeline on *)
(* ===================================================================== *)

Module Examples.
Import Py Value.

Definition lit (s : string) : string := dquote +:+ s +:+ dquote.
Definition member (k v : string) : string := lit k +:+ ": " +:+ v.
Definition fenced (opening text : string) : string :=
  opening +:+ nl +:+ text +:+ nl +:+ "```" +:+ nl.

Definition task_login : string := "Add user login with email and password".

Definition json_login : string :=
  "{" +:+ member "title" (lit "Add user email login") +:+ ", "
      +:+ member "estimated_time" (lit "2 days") +:+ ", "
      +:+ member "required_access" (lit "GitHub Repository Write Access")
      +:+ "}".
Definition json_bare_dependency : string :=
  "{" +:+ member "dependencies" (lit "db") +:+ "}".
Definition json_number_dependency : string :=
  "{" +:+ member "dependencies" "5" +:+ "}".
Definition json_one_word_title : string :=
  "{" +:+ member "title" (lit "Fix") +:+ "}".
Definition json_success_false : string :=
  "{" +:+ member "success" "false" +:+ ", "
      +:+ member "error" (lit "quota") +:+ "}".
Definition json_no_title : string :=
  "{" +:+ member "priority" (lit "High") +:+ "}".
Definition json_numeric_reasoning : string :=
  "{" +:+ member "title" (lit "Add user email login") +:+ ", "
      +:+ member "reasoning" "5" +:+ "}".
Definition json_array : string := "[1, 2]".
Definition prose : string := "Sorry, I cannot estimate this task.".

(** An endpoint that always answers [text]; one that is unavailable twice
    and then answers; one that stays unavailable; one that refuses. *)
Definition answers (text : string) : service := fun _ _ => Ok (Some text).
Definition unavailable : exn :=
  Exn "ServerError" "503 UNAVAILABLE. The model is overloaded.".
Definition recovers (text : string) : service :=
  fun n _ => if n <? 2 then Raise unavailable else Ok (Some text).
Definition down : service := fun _ _ => Raise unavailable.
Definition refuses : service :=
  fun _ _ => Raise (Exn "ClientError" "403 PERMISSION_DENIED").

(** An endpoint whose responses have no text. *)
Definition silent : service := fun _ _ => Ok None.

(** A content hash to run the handler with: a base-31 digest. *)
Fixpoint digest (acc : Z) (s : string) : Z :=
  match s with
  | EmptyString => acc
  | String c s' => digest ((31 * acc + Z.of_nat (nat_of_ascii c)) mod 2 ^ 32) s'
  end.
Definition digest_id (s : string) : string := AITaskCreator.hex 8 (digest 7 s).

(** A store that accepts every ticket. *)
Definition open_store : TicketStore :=
  {| commit_error := fun _ _ => None;
     to_dict := fun t => JObj (<["ticket_number" := ticket_number t]>
                                 (<["status" := JStr (status t)]> ∅)) |}.

Definition request (task : string) : json := JObj {[ "task" := JStr task ]}.

Definition confirmation (number : json) (edited_priority : string) : json :=
  JObj (<["ticket_number" := number]>
          (<["edited_priority" := JStr edited_priority]>
             (<["task" := JStr task_login]> ∅))).

(** The estimate handler with the reader [MiniJson], the digest as ticket
    id, the draw 255 and an empty store. *)
Definition estimate (svc : service) (task : string) : response :=
  fst (@AITaskCreator.get_ai_estimate MiniJson.loads digest_id svc 255
         (request task) []).

(** The objects that [MiniJson] reads from the texts above. *)
Definition login_object : dict :=
  <["title" := JStr "Add user email login"]>
    (<["estimated_time" := JStr "2 days"]>
       (<["required_access" := JStr "GitHub Repository Write Access"]> ∅)).
Definition success_false_object : dict :=
  <["success" := JBool false]> (<["error" := JStr "quota"]> ∅).
Definition bare_dependency_object : dict := {[ "dependencies" := JStr "db" ]}.
Definition numeric_reasoning_object : dict :=
  <["title" := JStr "Add user email login"]> (<["reasoning" := JNum 5]> ∅).

(** The ticket handler with the open store and the draw 255. *)
Definition confirm (data : json) (db : list ticket) : response * list ticket :=
  @AITaskCreator.create_final_ticket open_store 255 data db.

End Examples.

(* ===================================================================== *)
(** ** Facts on strings *)
(* ===================================================================== *)

Section StringFacts.
Import Py.

Lemma string_app_cons c (a b : string) : String c a +:+ b = String c (a +:+ b).
Proof. reflexivity. Qed.

Lemma string_app_empty_l (s : string) : EmptyString +:+ s = s.
Proof. reflexivity. Qed.

Lemma string_app_empty_r (s : string) : s +:+ EmptyString = s.
Proof. induction s as [|c s IH]; [reflexivity|]. rewrite string_app_cons, IH. reflexivity. Qed.

Lemma string_app_assoc (a b c : string) : (a +:+ b) +:+ c = a +:+ b +:+ c.
Proof.
  induction a as [|x a IH]; [reflexivity|].
  rewrite !string_app_cons, IH. reflexivity.
Qed.

Lemma string_length_app (a b : string) :
  String.length (a +:+ b) = String.length a + String.length b.
Proof.
  induction a as [|x a IH]; [reflexivity|].
  rewrite string_app_cons. simpl. rewrite IH. reflexivity.
Qed.

Lemma startswith_app (p s : string) : startswith p (p +:+ s) = true.
Proof.
  unfold startswith. induction p as [|x p IH]; [destruct s; reflexivity|].
  rewrite string_app_cons. simpl. destruct (ascii_dec x x); [exact IH | congruence].
Qed.

Lemma drop_app (p s : string) : drop (String.length p) (p +:+ s) = s.
Proof.
  induction p as [|x p IH]; [destruct s; reflexivity|].
  rewrite string_app_cons. simpl. exact IH.
Qed.

Lemma take_app (p s : string) : take (String.length p) (p +:+ s) = p.
Proof.
  induction p as [|x p IH]; [destruct s; reflexivity|].
  rewrite string_app_cons. simpl. rewrite IH. reflexivity.
Qed.

Lemma endswith_app (s p : string) : endswith p (s +:+ p) = true.
Proof.
  unfold endswith. rewrite string_length_app.
  replace (String.length s + String.length p - String.length p)
    with (String.length s) by lia.
  rewrite drop_app, String.eqb_refl, andb_true_r.
  apply Nat.leb_le. lia.
Qed.

Lemma drop_last_app (s p : string) : drop_last (String.length p) (s +:+ p) = s.
Proof.
  unfold drop_last. rewrite string_length_app.
  replace (String.length s + String.length p - String.length p)
    with (String.length s) by lia.
  apply take_app.
Qed.

(** Stripping on the left. *)
Lemma lstrip_blank (ws s : string) :
  all_chars isspace ws = true -> lstrip (ws +:+ s) = lstrip s.
Proof.
  induction ws as [|c ws IH]; [reflexivity|].
  cbn [all_chars]. intros [Hc Hws]%andb_true_iff.
  rewrite string_app_cons. cbn [lstrip]. rewrite Hc. auto.
Qed.

(** Stripping on the right. *)
Lemma rstrip_blank_only (ws : string) :
  all_chars isspace ws = true -> rstrip ws = EmptyString.
Proof.
  induction ws as [|c ws IH]; [reflexivity|].
  simpl. intros [Hc Hws]%andb_true_iff. rewrite (IH Hws), Hc. reflexivity.
Qed.

Lemma rstrip_app (a b : string) :
  rstrip b <> EmptyString -> rstrip (a +:+ b) = a +:+ rstrip b.
Proof.
  intros Hb. induction a as [|c a IH]; [reflexivity|].
  rewrite !string_app_cons. simpl. rewrite IH.
  destruct (a +:+ rstrip b) eqn:E; [|reflexivity].
  destruct a; [rewrite string_app_empty_l in E; congruence|].
  rewrite string_app_cons in E. discriminate.
Qed.

Lemma rstrip_blank (s ws : string) :
  all_chars isspace ws = true -> rstrip (s +:+ ws) = rstrip s.
Proof.
  intros Hws. induction s as [|c s IH].
  - rewrite string_app_empty_l. simpl. apply rstrip_blank_only, Hws.
  - rewrite string_app_cons. simpl. rewrite IH. reflexivity.
Qed.

Lemma rstrip_last (s : string) c :
  last_char s = Some c -> isspace c = false -> rstrip s = s.
Proof.
  intros Hlast Hc. induction s as [|x s IH]; [reflexivity|].
  destruct s as [|y s].
  - cbn in Hlast |- *. injection Hlast as ->. rewrite Hc. reflexivity.
  - change (last_char (String x (String y s))) with (last_char (String y s)) in Hlast.
    cbn [rstrip] in IH |- *. rewrite (IH Hlast). reflexivity.
Qed.

Lemma all_chars_app p (a b : string) :
  all_chars p (a +:+ b) = all_chars p a && all_chars p b.
Proof.
  induction a as [|c a IH]; [reflexivity|].
  rewrite string_app_cons. cbn [all_chars]. rewrite IH, andb_assoc. reflexivity.
Qed.

Lemma first_char_app (a b : string) c :
  first_char a = Some c -> first_char (a +:+ b) = Some c.
Proof. destruct a; [discriminate|]. rewrite string_app_cons. exact id. Qed.

Lemma last_char_app (a b : string) :
  b <> EmptyString -> last_char (a +:+ b) = last_char b.
Proof.
  intros Hb. induction a as [|c a IH]; [reflexivity|].
  rewrite string_app_cons. cbn [last_char]. rewrite IH.
  destruct (a +:+ b) eqn:E; [|reflexivity].
  destruct a; [rewrite string_app_empty_l in E; congruence|].
  rewrite string_app_cons in E. discriminate.
Qed.

(** White space around a text whose ends are not blank is stripped away. *)
Lemma strip_padded (ws1 ws2 s : string) a b :
  all_chars isspace ws1 = true -> all_chars isspace ws2 = true ->
  first_char s = Some a -> isspace a = false ->
  last_char s = Some b -> isspace b = false ->
  strip (ws1 +:+ s +:+ ws2) = s.
Proof.
  intros H1 H2 Ha Hna Hb Hnb. unfold strip.
  rewrite lstrip_blank by exact H1.
  destruct s as [|c s]; [discriminate|]. injection Ha as ->.
  rewrite string_app_cons. cbn [lstrip]. rewrite Hna, <- string_app_cons.
  rewrite rstrip_blank by exact H2. eapply rstrip_last; eauto.
Qed.

(** The first character after white space and in front of a text. *)
Lemma first_char_padded (ws s rest : string) :
  all_chars isspace ws = true -> s <> EmptyString ->
  exists c, first_char (ws +:+ s +:+ rest) = Some c
            /\ (isspace c = true \/ first_char s = Some c).
Proof.
  intros Hws Hs. destruct ws as [|x ws].
  - destruct s as [|c s]; [congruence|]. exists c. split; [reflexivity|auto].
  - exists x. cbn [all_chars] in Hws. apply andb_true_iff in Hws as [Hx _].
    split; [reflexivity|auto].
Qed.

Lemma startswith_other c (p s : string) x :
  first_char s = Some x -> x <> c -> startswith (String c p) s = false.
Proof.
  intros Hs Hne. destruct s as [|y s]; [discriminate|]. injection Hs as ->.
  unfold startswith. cbn [String.prefix].
  destruct (ascii_dec c x); [congruence|reflexivity].
Qed.

Lemma startswith_app_cancel (p q s : string) :
  startswith (p +:+ q) (p +:+ s) = startswith q s.
Proof.
  unfold startswith. induction p as [|c p IH]; [reflexivity|].
  rewrite !string_app_cons. cbn [String.prefix].
  destruct (ascii_dec c c); [exact IH|congruence].
Qed.

Lemma take_drop n (s : string) : take n s +:+ drop n s = s.
Proof.
  revert s. induction n as [|n IH]; intros [|c s]; try reflexivity.
  cbn [take drop]. rewrite string_app_cons, IH. reflexivity.
Qed.

Lemma endswith_last (p s : string) :
  p <> EmptyString -> endswith p s = true -> last_char s = last_char p.
Proof.
  intros Hp [_ Heq%String.eqb_eq]%andb_true_iff.
  rewrite <- (take_drop (String.length s - String.length p) s), Heq.
  apply last_char_app, Hp.
Qed.

End StringFacts.

(* ===================================================================== *)
(** ** Fence stripping *)
(* ===================================================================== *)

Section FenceFacts.
Import Py Shape AIServices.

Variables ws1 ws2 body ws3 ws4 : string.
Hypothesis blank1 : blank ws1 = true.
Hypothesis blank2 : blank ws2 = true.
Hypothesis blank3 : blank ws3 = true.
Hypothesis blank4 : blank ws4 = true.
Hypothesis ends : plain_ends body = true.

Lemma plain_ends_inv :
  exists a b,
    first_char body = Some a /\ last_char body = Some b
    /\ isspace a = false /\ a <> backtick /\ a <> "j"%char
    /\ isspace b = false /\ b <> backtick.
Proof.
  unfold plain_ends in ends.
  destruct (first_char body) as [a|]; [|discriminate].
  destruct (last_char body) as [b|]; [|discriminate].
  exists a, b.
  rewrite !andb_true_iff, !negb_true_iff in ends.
  destruct ends as ((((H1 & H2) & H3) & H4) & H5).
  apply Ascii.eqb_neq in H2, H3, H5. auto 10.
Qed.

Lemma body_nonempty : body <> EmptyString.
Proof. destruct plain_ends_inv as (a & b & Ha & _). intros ->. discriminate. Qed.

(** What lies between the fence markers is stripped down to the text. *)
Lemma strip_inner : strip (ws2 +:+ body +:+ ws3) = body.
Proof.
  destruct plain_ends_inv as (a & b & Ha & Hb & Hna & _ & _ & Hnb & _).
  eapply strip_padded; eauto.
Qed.

(** The text in front of the closing fence starts with no marker. *)
Lemma inner_first (rest : string) :
  exists c, first_char (ws2 +:+ body +:+ rest) = Some c
            /\ c <> backtick /\ c <> "j"%char.
Proof.
  destruct plain_ends_inv as (a & b & Ha & Hb & Hna & Hbt & Hj & _).
  destruct (first_char_padded ws2 body rest blank2 body_nonempty)
    as (c & Hc & [Hsp | Hfirst]).
  - exists c. split; [exact Hc|]. split; intros ->; discriminate.
  - exists c. rewrite Ha in Hfirst. injection Hfirst as <-. auto.
Qed.

Lemma closing_fence_removed :
  let rest := ws2 +:+ body +:+ ws3 +:+ "```" in
  strip (if endswith "```" rest then drop_last 3 rest else rest) = body
  /\ startswith "```" rest = false
  /\ startswith "json" rest = false.
Proof.
  intros rest.
  destruct (inner_first (ws3 +:+ "```")) as (c & Hc & Hbt & Hj).
  split; [|split; eapply startswith_other; eauto].
  replace rest with ((ws2 +:+ body +:+ ws3) +:+ "```")
    by (unfold rest; rewrite !string_app_assoc; reflexivity).
  rewrite endswith_app. change 3 with (String.length "```").
  rewrite drop_last_app. apply strip_inner.
Qed.

(** A fenced text is left alone by the first [strip]. *)
Lemma strip_fenced (op : string) :
  first_char op = Some backtick ->
  strip (ws1 +:+ (op +:+ ws2 +:+ body +:+ ws3 +:+ "```") +:+ ws4)
  = op +:+ ws2 +:+ body +:+ ws3 +:+ "```".
Proof.
  intros Hop. eapply strip_padded; eauto.
  - eapply first_char_app; eauto.
  - reflexivity.
  - rewrite <- !string_app_assoc. rewrite last_char_app by discriminate. reflexivity.
  - reflexivity.
Qed.

(** Lines 144-156 recover the JSON text from each of the layouts. *)
Lemma strip_fences_laid_out (f : fence) :
  strip_fences (strip (laid_out f ws1 ws2 body ws3 ws4)) = body.
Proof.
  destruct closing_fence_removed as (Hbody & Hno & Hnoj).
  unfold laid_out. destruct f; cbn [opening closing].
  - replace (ws1 +:+ "```json" +:+ ws2 +:+ body +:+ ws3 +:+ "```" +:+ ws4)
      with (ws1 +:+ ("```json" +:+ ws2 +:+ body +:+ ws3 +:+ "```") +:+ ws4)
      by (rewrite !string_app_assoc; reflexivity).
    rewrite strip_fenced by reflexivity.
    unfold strip_fences.
    rewrite startswith_app. change 7 with (String.length "```json").
    rewrite drop_app, Hno. exact Hbody.
  - replace (ws1 +:+ "```" +:+ ws2 +:+ body +:+ ws3 +:+ "```" +:+ ws4)
      with (ws1 +:+ ("```" +:+ ws2 +:+ body +:+ ws3 +:+ "```") +:+ ws4)
      by (rewrite !string_app_assoc; reflexivity).
    rewrite strip_fenced by reflexivity.
    unfold strip_fences.
    change "```json" with ("```" +:+ "json").
    rewrite startswith_app_cancel, Hnoj, startswith_app.
    change 3 with (String.length "```") at 1.
    rewrite drop_app. exact Hbody.
  - rewrite !string_app_empty_l.
    destruct plain_ends_inv as (a & b & Ha & Hb & Hna & Hbt & _ & Hnb & Hbt').
    replace (ws1 +:+ ws2 +:+ body +:+ ws3 +:+ ws4)
      with ((ws1 +:+ ws2) +:+ body +:+ (ws3 +:+ ws4))
      by (rewrite !string_app_assoc; reflexivity).
    assert (strip ((ws1 +:+ ws2) +:+ body +:+ ws3 +:+ ws4) = body) as ->.
    { eapply strip_padded; eauto; rewrite all_chars_app;
        apply andb_true_iff; auto. }
    unfold strip_fences.
    rewrite (startswith_other _ _ body a) by auto.
    rewrite (startswith_other _ _ body a) by auto.
    destruct (endswith "```" body) eqn:E.
    + apply endswith_last in E; [|discriminate].
      rewrite Hb in E. injection E as ->. exfalso. apply Hbt'. reflexivity.
    + pose proof (strip_padded EmptyString EmptyString body a b
                    eq_refl eq_refl Ha Hna Hb Hnb) as Hs.
      rewrite string_app_empty_l, string_app_empty_r in Hs. exact Hs.
Qed.

End FenceFacts.

(* ===================================================================== *)
(** ** The retry loop *)
(* ===================================================================== *)

Section RetryFacts.
Import Py Value Shape AIServices.

Variable svc : service.
Variable task : string.

(** The loop over the attempts [a .. a+n-1] that end at [max_retries]:
    it stops at the first call [a+k] that succeeds, fails otherwise than
    on unavailability or is the last one, having slept [k] times. *)
Lemma retry_loop_spec (n : nat) :
  forall a d slept, a + n = max_retries -> 0 < n ->
    exists k, k < n
      /\ (forall i, i < k ->
            exists e, svc (a + i) task = Raise e /\ is_unavailable e = true)
      /\ retry_loop svc task (seq a n) d slept
         = (svc (a + k) task, slept ++ backoff d k)
      /\ ((exists r, svc (a + k) task = Ok r)
          \/ (exists e, svc (a + k) task = Raise e
                /\ (is_unavailable e = false \/ a + k = max_retries - 1))).
Proof.
  induction n as [|n IH]; intros a d slept Hsum Hpos; [lia|].
  cbn [seq retry_loop].
  destruct (svc a task) as [r|e] eqn:Hcall.
  - exists 0. rewrite Nat.add_0_r, Hcall, app_nil_r.
    split; [lia|]. split; [intros i Hi; lia|]. split; [reflexivity|]. eauto.
  - destruct (is_unavailable e) eqn:Hkind.
    + destruct (a <? max_retries - 1) eqn:Hlast.
      * apply Nat.ltb_lt in Hlast. unfold max_retries in *.
        destruct (IH (S a) (d * 2)%Z (slept ++ [d])) as (k & Hk & Hbefore & Hrun & Hstop);
          [lia|lia|].
        exists (S k). replace (a + S k) with (S a + k) by lia.
        split; [lia|]. split; [|split; [|exact Hstop]].
        -- intros [|i] Hi; [rewrite Nat.add_0_r; eauto|].
           replace (a + S i) with (S a + i) by lia. apply Hbefore. lia.
        -- rewrite Hrun, <- app_assoc. reflexivity.
      * apply Nat.ltb_ge in Hlast. unfold max_retries in *.
        exists 0. rewrite Nat.add_0_r, Hcall, app_nil_r.
        split; [lia|]. split; [intros i Hi; lia|]. split; [reflexivity|].
        right. exists e. split; [reflexivity|]. right. lia.
    + exists 0. rewrite Nat.add_0_r, Hcall, app_nil_r.
      split; [lia|]. split; [intros i Hi; lia|]. split; [reflexivity|].
      right. eauto.
Qed.

Lemma generate_with_retry_spec :
  exists k, k < max_retries
    /\ unavailable_before svc task k
    /\ generate_with_retry svc task
       = (svc k task, backoff initial_retry_delay k)
    /\ ((exists r, svc k task = Ok r)
        \/ (exists e, svc k task = Raise e
              /\ (is_unavailable e = false \/ k = max_retries - 1))).
Proof.
  destruct (retry_loop_spec max_retries 0 initial_retry_delay [])
    as (k & Hk & Hbefore & Hrun & Hstop); [reflexivity|unfold max_retries; lia|].
  exists k. auto.
Qed.

(** An invocation that fails, fails with the failure of its last call. *)
Lemma invocation_fails_run (e : exn) :
  invocation_fails svc task e ->
  exists k, generate_with_retry svc task = (Raise e, backoff initial_retry_delay k)
            /\ k < max_retries.
Proof.
  intros (k & Hk & Hbefore & Hcall & Hkind).
  destruct generate_with_retry_spec as (k' & Hk' & Hbefore' & Hrun & Hstop).
  assert (k' = k) as ->.
  { apply Nat.le_antisymm.
    - destruct (Nat.le_gt_cases k' k) as [|Hgt]; [assumption|].
      destruct (Hbefore' k Hgt) as (e' & He' & Hu').
      rewrite Hcall in He'. injection He' as <-.
      destruct Hkind as [Hkind | ->]; [congruence|].
      unfold max_retries in *. lia.
    - destruct (Nat.le_gt_cases k k') as [|Hgt]; [assumption|].
      destruct (Hbefore k' Hgt) as (e' & He' & Hu').
      destruct Hstop as [(r & Hr) | (e'' & He'' & [Hkind' | ->])];
        [congruence | | unfold max_retries in *; lia].
      rewrite He' in He''. injection He'' as <-. congruence. }
  exists k. rewrite Hrun, Hcall. auto.
Qed.

(** Doubling a positive delay makes each delay exceed the one before. *)
Lemma backoff_increasing (k : nat) :
  forall d, (0 < d)%Z -> increasing (backoff d k).
Proof.
  induction k as [|k IH]; intros d Hd; [exact I|].
  cbn [backoff]. specialize (IH (d * 2)%Z ltac:(lia)).
  destruct k as [|k]; [exact I|].
  cbn [backoff increasing] in IH |- *. split; [lia|exact IH].
Qed.

End RetryFacts.

(* ===================================================================== *)
(** ** The estimator *)
(* ===================================================================== *)

Section EstimatorFacts.
Import Py Value Shape AIServices.
Context `{JsonLib}.

Variable svc : service.
Variable task : string.

(** The three sources of an estimate: a failure, a reply that is no JSON,
    a reply that is. *)
Lemma estimate_task_outcome :
  fst (estimate_task svc task)
  = match fst (generate_with_retry svc task) with
    | Raise e => failure_estimate e
    | Ok None => failure_estimate (AttributeError JNull "strip")
    | Ok (Some text) =>
        match json_loads (strip_fences (strip text)) with
        | None => fallback_estimate task
        | Some v => try_except (normalise_parsed v) failure_estimate
        end
    end.
Proof.
  unfold estimate_task.
  destruct (generate_with_retry svc task) as [[[text|]|e] slept]; try reflexivity.
  cbn [fst bind normalise_response try_except].
  destruct (json_loads (strip_fences (strip text))); reflexivity.
Qed.

Lemma estimate_task_slept :
  snd (estimate_task svc task) = snd (generate_with_retry svc task).
Proof.
  unfold estimate_task. destruct (generate_with_retry svc task); reflexivity.
Qed.

Lemma estimate_task_failed (e : exn) :
  fst (generate_with_retry svc task) = Raise e ->
  fst (estimate_task svc task) = failure_estimate e.
Proof. intros Hrun. rewrite estimate_task_outcome, Hrun. reflexivity. Qed.

Lemma estimate_task_unparsable (text : string) :
  fst (generate_with_retry svc task) = Ok (Some text) ->
  json_loads (strip_fences (strip text)) = None ->
  fst (estimate_task svc task) = fallback_estimate task.
Proof. intros Hrun Hjson. rewrite estimate_task_outcome, Hrun, Hjson. reflexivity. Qed.

Lemma estimate_task_parsed (text : string) (o : dict) :
  fst (generate_with_retry svc task) = Ok (Some text) ->
  json_loads (strip_fences (strip text)) = Some (JObj o) ->
  fst (estimate_task svc task) = success_estimate (wrap_required_access o).
Proof. intros Hrun Hjson. rewrite estimate_task_outcome, Hrun, Hjson. reflexivity. Qed.

End EstimatorFacts.

Section DictFacts.
Import Py Value Shape AIServices AITaskCreator.

(** Lines 161-164 change the entry [required_access] and no other. *)
Lemma wrap_required_access_lookup (o : dict) (k : string) :
  wrap_required_access o !! k
  = if bool_decide (k = "required_access") then wrap_str <$> o !! k else o !! k.
Proof.
  unfold wrap_required_access.
  destruct (o !! "required_access") as [v|] eqn:Hra.
  - case_bool_decide as Hk; [subst k|].
    + destruct v; rewrite ?lookup_insert_eq, Hra; reflexivity.
    + destruct v; rewrite ?lookup_insert_ne by congruence; reflexivity.
  - case_bool_decide as Hk; [subst k; rewrite Hra|]; reflexivity.
Qed.

(** In [{"success": True, "title": ..., **estimate_data}] the entries of
    [estimate_data] come last and win. *)
Lemma success_estimate_lookup (o : dict) (k : string) :
  success_estimate o !! k
  = match o !! k with
    | Some v => Some v
    | None =>
        if bool_decide (k = "success") then Some (JBool true)
        else if bool_decide (k = "title") then Some (JStr EmptyString)
        else None
    end.
Proof.
  unfold success_estimate, merge_over.
  destruct (o !! k) as [v|] eqn:Hk.
  - rewrite lookup_union_l' by (rewrite Hk; eauto). exact Hk.
  - rewrite lookup_union_r by exact Hk.
    case_bool_decide as Hs; [subst k; apply lookup_insert_eq|].
    rewrite lookup_insert_ne by congruence.
    case_bool_decide as Ht.
    + subst k. rewrite lookup_insert_eq. unfold get_default. rewrite Hk. reflexivity.
    + rewrite lookup_insert_ne by congruence. apply lookup_empty.
Qed.

Lemma wrap_str_not_str (v : json) : is_str (wrap_str v) = false.
Proof. destruct v; reflexivity. Qed.

Lemma fallback_estimate_shape (task : string) :
  well_shaped (fallback_estimate task) = true.
Proof. reflexivity. Qed.

Lemma failure_estimate_shape (e : exn) :
  well_shaped (failure_estimate e) = true.
Proof. reflexivity. Qed.

(** The three sequence fields of the estimate that is sent. *)
Lemma sent_estimate_array_field (ai : dict) (t : json) (k : string) :
  k ∈ array_fields ->
  (<["title" := t]> (sent_estimate ai) : dict) !! k
  = Some (wrap_str (get_default k (JArr []) ai)).
Proof.
  intros Hk. apply list_elem_of_In in Hk. cbn in Hk.
  destruct Hk as [<-|[<-|[<-|[]]]]; reflexivity.
Qed.

Lemma sent_estimate_fields (ai : dict) (t : json) :
  forallb (has_field (<["title" := t]> (sent_estimate ai))) estimate_fields = true.
Proof. reflexivity. Qed.

End DictFacts.

(* ===================================================================== *)
(** ** The estimate handler *)
(* ===================================================================== *)

Section HandlerFacts.
Import Py Value Shape AIServices AITaskCreator.
Context `{JsonLib} `{TicketIds}.

Lemma generate_short_title_str (task : string) (max_words : nat) :
  exists t, generate_short_title (JStr task) max_words = Ok t.
Proof.
  unfold generate_short_title.
  destruct (negb (truthy (JStr task))); cbn [as_str bind]; eauto.
Qed.

Lemma resolve_title_ok (raw_title : json) (task : string) :
  exists t, resolve_title raw_title task = Ok t.
Proof.
  unfold resolve_title.
  destruct raw_title; try apply generate_short_title_str.
  destruct (_ && _); [eauto | apply generate_short_title_str].
Qed.

Lemma success_response_eq (u : Z) (task : string) (ai_response : dict) :
  success_response u task ai_response
  = Ok (Response 200
          (JObj (response_data (_generate_ticket_id task) (generate_ticket_number u)
                   task ai_response (sent_estimate ai_response)))).
Proof.
  unfold success_response.
  destruct (resolve_title (get "title" ai_response) task) as [t|e] eqn:Ht.
  - reflexivity.
  - destruct (resolve_title_ok (get "title" ai_response) task) as (t & Ht').
    congruence.
Qed.

(** The handler answers 200 only along the success branch. *)
Lemma respond_200 (u : Z) (task : string) (ai_response : dict) (r : response) :
  try_except (respond u task ai_response)
             (fun e => error_response 500 (JStr (exn_msg e))) = r ->
  http_status r = 200%Z ->
  truthy (get "success" ai_response) = true
  /\ r = Response 200
           (JObj (response_data (_generate_ticket_id task) (generate_ticket_number u)
                    task ai_response (sent_estimate ai_response))).
Proof.
  unfold respond. intros <-.
  destruct (check_sliceable _) as [[]|e]; cbn [bind try_except];
    [|cbn; discriminate].
  destruct (truthy (get "success" ai_response)); [|cbn; discriminate].
  rewrite success_response_eq. cbn [try_except]. auto.
Qed.

Lemma get_ai_estimate_valid (svc : service) (u : Z) (o : dict) (raw : string)
    (db : list ticket) :
  o !! "task" = Some (JStr raw) -> nonempty (strip raw) = true ->
  get_ai_estimate svc u (JObj o) db
  = (try_except (respond u (strip raw) (fst (estimate_task svc (strip raw))))
                (fun e => error_response 500 (JStr (exn_msg e))),
     db).
Proof.
  intros Htask Hne. unfold get_ai_estimate.
  cbn [obj_get bind]. unfold get_default. rewrite Htask.
  cbn [default from_option id as_str bind]. rewrite Hne. reflexivity.
Qed.

Lemma get_ai_estimate_200 (svc : service) (u : Z) (data : json)
    (db : list ticket) :
  http_status (fst (get_ai_estimate svc u data db)) = 200%Z ->
  exists o raw,
    data = JObj o /\ o !! "task" = Some (JStr raw)
    /\ nonempty (strip raw) = true
    /\ truthy (get "success" (fst (estimate_task svc (strip raw)))) = true
    /\ fst (get_ai_estimate svc u data db)
       = Response 200
           (JObj (response_data (_generate_ticket_id (strip raw))
                    (generate_ticket_number u) (strip raw)
                    (fst (estimate_task svc (strip raw)))
                    (sent_estimate (fst (estimate_task svc (strip raw)))))).
Proof.
  intros H200.
  assert (forall o v, data = JObj o -> o !! "task" = v ->
            fst (get_ai_estimate svc u data db)
            = try_except
                (task <- as_str (default (JStr EmptyString) v) "strip" ;;
                 if negb (nonempty (strip task)) then
                   Ok (error_response 400 (JStr "Task description is required"))
                 else respond u (strip task) (fst (estimate_task svc (strip task))))
                (fun e => error_response 500 (JStr (exn_msg e)))) as Hrun.
  { intros o v -> <-. reflexivity. }
  destruct data as [| | | |?|o]; try (cbn in H200; discriminate).
  specialize (Hrun o _ eq_refl eq_refl).
  destruct (o !! "task") as [v|] eqn:Htask;
    [|rewrite Hrun in H200; cbn in H200; discriminate].
  destruct v as [| | |raw| |];
    try (rewrite Hrun in H200; cbn in H200; discriminate).
  destruct (nonempty (strip raw)) eqn:Hne.
  - rewrite (get_ai_estimate_valid _ _ _ _ _ Htask Hne) in H200 |- *.
    cbn [fst] in H200 |- *.
    destruct (respond_200 u (strip raw) (fst (estimate_task svc (strip raw))) _
                eq_refl H200) as (Hsucc & Heq).
    exists o, raw. rewrite Heq. auto.
  - rewrite Hrun in H200. cbn [default from_option id as_str bind] in H200.
    rewrite Hne in H200. cbn in H200. discriminate.
Qed.

(** The store is the same after the handler as before it. *)
Lemma get_ai_estimate_store (svc : service) (u : Z) (data : json)
    (db : list ticket) :
  snd (get_ai_estimate svc u data db) = db.
Proof. reflexivity. Qed.

Lemma response_data_estimate (tid tn task : string) (ai est : dict) :
  emitted_estimate (Response 200 (JObj (response_data tid tn task ai est)))
  = Some (<["title" := get_default "title" (JStr task) ai]> est).
Proof. reflexivity. Qed.

End HandlerFacts.

(* ===================================================================== *)
(** ** Ticket numbers and the ticket handler *)
(* ===================================================================== *)

Section TicketFacts.
Import Py Value Shape AIServices AITaskCreator.

Lemma length_map_chars f (s : string) :
  String.length (map_chars f s) = String.length s.
Proof. induction s as [|c s IH]; [reflexivity|]. cbn. rewrite IH. reflexivity. Qed.

Lemma all_chars_map_chars (p q : ascii -> bool) f (s : string) :
  (forall c, p c = true -> q (f c) = true) ->
  all_chars p s = true -> all_chars q (map_chars f s) = true.
Proof.
  intros Hf. induction s as [|c s IH]; [reflexivity|].
  cbn [all_chars map_chars]. intros [Hc Hs]%andb_true_iff.
  rewrite (Hf c Hc), (IH Hs). reflexivity.
Qed.

Lemma length_take n (s : string) :
  n <= String.length s -> String.length (take n s) = n.
Proof.
  revert s. induction n as [|n IH]; intros [|c s] Hle; cbn in *; try lia.
  rewrite IH; lia.
Qed.

Lemma all_chars_take p n (s : string) :
  all_chars p s = true -> all_chars p (take n s) = true.
Proof.
  revert s. induction n as [|n IH]; intros [|c s]; try reflexivity.
  cbn [all_chars take]. intros [Hc Hs]%andb_true_iff.
  rewrite Hc, (IH s Hs). reflexivity.
Qed.

Lemma hex_digit_lower (m : Z) :
  (0 <= m < 16)%Z -> is_lower_hex (hex_digit m) = true.
Proof.
  intros Hm.
  assert (exists k, k < 16 /\ m = Z.of_nat k) as (k & Hk & ->)
    by (exists (Z.to_nat m); lia).
  do 16 (destruct k as [|k]; [reflexivity|]). lia.
Qed.

Lemma hex_shape (n : nat) (u : Z) :
  String.length (hex n u) = n /\ all_chars is_lower_hex (hex n u) = true.
Proof.
  revert u. induction n as [|n IH]; intros u; [split; reflexivity|].
  destruct (IH (u / 16)%Z) as (Hlen & Hall).
  cbn [hex]. rewrite string_length_app, all_chars_app, Hlen, Hall.
  cbn [String.length all_chars].
  rewrite hex_digit_lower by (apply Z.mod_pos_bound; lia).
  split; [lia|reflexivity].
Qed.

Lemma upper_hex (c : ascii) :
  is_lower_hex c = true -> is_upper_hex (upper_char c) = true.
Proof.
  destruct c as [[] [] [] [] [] [] [] []]; intros Hc;
    first [discriminate Hc | reflexivity].
Qed.

Lemma lower_char_not_upper (c : ascii) : negb (isupper (lower_char c)) = true.
Proof. destruct c as [[] [] [] [] [] [] [] []]; reflexivity. Qed.

Lemma lower_is_lower_cased (s : string) : is_lower_cased (lower s) = true.
Proof.
  unfold is_lower_cased, lower.
  induction s as [|c s IH]; [reflexivity|].
  cbn [map_chars all_chars]. rewrite lower_char_not_upper, IH. reflexivity.
Qed.

(** A generated ticket number has the display format, whatever is drawn. *)
Lemma generate_ticket_number_format (u : Z) :
  matches_ticket_format (generate_ticket_number u) = true.
Proof.
  destruct (hex_shape 32 u) as (Hlen & Hall).
  unfold generate_ticket_number, str_uuid.
  set (h := hex 32 u) in *.
  assert (String.length (take 8 h) = 8) as Hlen8 by (apply length_take; lia).
  rewrite <- Hlen8 at 1. rewrite take_app.
  unfold matches_ticket_format.
  rewrite startswith_app, string_length_app.
  replace (drop 4 ("TKT-" +:+ upper (take 8 h))) with (upper (take 8 h))
    by (symmetry; apply (drop_app "TKT-")).
  unfold upper. rewrite length_map_chars, Hlen8.
  rewrite (all_chars_map_chars is_lower_hex is_upper_hex);
    [reflexivity | exact upper_hex | apply all_chars_take, Hall].
Qed.

(** What a ticket that could be built holds. *)
Lemma new_ticket_inv (u : Z) (data : json) (t : ticket) :
  new_ticket u data = Ok t ->
  exists o p,
    data = JObj o
    /\ get_default "edited_priority" (JStr "medium") o = JStr p
    /\ status t = "new"
    /\ priority t = lower p
    /\ ticket_number t
       = (if truthy (get "ticket_number" o) then get "ticket_number" o
          else JStr (generate_ticket_number u)).
Proof.
  destruct data as [| | | |?|o]; try discriminate.
  unfold new_ticket. cbn [obj_get bind].
  destruct (generate_short_title _ 6) as [short|e]; [|discriminate].
  cbn [bind].
  destruct (get_default "edited_priority" (JStr "medium") o) as [| | |p| |] eqn:Hp;
    try discriminate.
  cbn [as_str bind].
  destruct (get_default "estimate" (JObj ∅) o) as [| | | | |est];
    try discriminate.
  cbn [obj_get bind]. intros [= <-].
  exists o, p. auto.
Qed.

(** The store gains at most the ticket that was built. *)
Lemma create_final_ticket_store `{TicketStore} (u : Z) (data : json)
    (db : list ticket) (t : ticket) :
  snd (create_final_ticket u data db) = db ++ [t] ->
  new_ticket u data = Ok t /\ commit_error db t = None.
Proof.
  unfold create_final_ticket.
  destruct (new_ticket u data) as [t'|e].
  - destruct (commit_error db t') eqn:Hc; cbn [snd].
    + intros Hdb. apply (f_equal (@length ticket)) in Hdb.
      rewrite length_app in Hdb. cbn in Hdb. lia.
    + intros [= <-]%app_inv_head. auto.
  - cbn [snd]. intros Hdb. apply (f_equal (@length ticket)) in Hdb.
    rewrite length_app in Hdb. cbn in Hdb. lia.
Qed.

End TicketFacts.

(* ===================================================================== *)
(** ** The properties of the specification *)
(* ===================================================================== *)

Section Specification.
Import Py Value Shape AIServices AITaskCreator.
Context {json_lib : JsonLib} {ticket_ids : TicketIds} {ticket_store : TicketStore}.

(** C3.  The model invoker makes at most three calls.  It goes on only
    after a failure that signals unavailability, sleeping 2 time units
    before the second call and 4 before the third; the outcome of the call
    it stops at, a reply or a failure of another kind or the failure of
    the third call, is what the caller gets.  In particular two
    unavailable calls followed by a reply give that reply after exactly
    the two delays 2 and 4. *)
Theorem C3_model_invoker_retry (svc : service) (task : string) :
  (exists k, k < max_retries
     /\ unavailable_before svc task k
     /\ generate_with_retry svc task = (svc k task, backoff 2 k)
     /\ ((exists r, svc k task = Ok r)
         \/ (exists e, svc k task = Raise e
               /\ (is_unavailable e = false \/ k = 2))))
  /\ increasing (snd (generate_with_retry svc task))
  /\ (forall e1 e2 r,
        svc 0 task = Raise e1 -> is_unavailable e1 = true ->
        svc 1 task = Raise e2 -> is_unavailable e2 = true ->
        svc 2 task = Ok r ->
        generate_with_retry svc task = (Ok r, [2; 4]%Z)
        /\ length (snd (generate_with_retry svc task)) = 2
        /\ (2 < 4)%Z).
Proof.
  destruct (generate_with_retry_spec svc task)
    as (k & Hk & Hbefore & Hrun & Hstop).
  split; [exists k; split; [exact Hk|]; split; [exact Hbefore|];
          split; [exact Hrun|exact Hstop]|].
  split.
  - rewrite Hrun. apply backoff_increasing. reflexivity.
  - intros e1 e2 r Hc0 Hu0 Hc1 Hu1 Hc2.
    unfold generate_with_retry. cbn [seq max_retries retry_loop].
    rewrite Hc0, Hu0, Hc1, Hu1, Hc2. cbn. repeat split; lia.
Qed.


(** C5.  When the invocation fails, on a failure of another kind than
    unavailability or on the third unavailable call, the estimate is tagged
    success=false, carries the non-empty error text built from the
    failure, and has the neutral defaults; the handler then answers with the
    status 500 and a body that holds success=false and that error text and
    neither an estimate nor a ticket id or number, and leaves the ticket
    store as it was. *)
Theorem C5_invocation_failure (svc : service) (task : string) (e : exn) :
  invocation_fails svc task e ->
  let est := fst (estimate_task svc task) in
  est !! "success" = Some (JBool false)
  /\ est !! "error" = Some (JStr ("AI Generation failed: " +:+ exn_msg e))
  /\ nonempty ("AI Generation failed: " +:+ exn_msg e) = true
  /\ est !! "priority" = Some (JStr "Medium")
  /\ est !! "complexity_level" = Some (JStr "Medium")
  /\ est !! "suggested_labels" = Some (JArr [JStr "needs-analysis"])
  /\ (forall u o raw db,
        o !! "task" = Some (JStr raw) -> strip raw = task ->
        nonempty task = true ->
        get_ai_estimate svc u (JObj o) db
        = (error_response 500 (JStr ("AI Generation failed: " +:+ exn_msg e)),
           db)
        /\ http_status (fst (get_ai_estimate svc u (JObj o) db)) = 500%Z
        /\ (exists b,
              body (fst (get_ai_estimate svc u (JObj o) db)) = JObj b
              /\ b !! "success" = Some (JBool false)
              /\ b !! "error"
                 = Some (JStr ("AI Generation failed: " +:+ exn_msg e))
              /\ b !! "estimate" = None
              /\ b !! "ticket_id" = None
              /\ b !! "ticket_number" = None)
        /\ emitted_estimate (fst (get_ai_estimate svc u (JObj o) db)) = None
        /\ snd (get_ai_estimate svc u (JObj o) db) = db).
Proof.
  intros Hfail est.
  destruct (invocation_fails_run svc task e Hfail) as (k & Hrun & _).
  assert (est = failure_estimate e) as Hest.
  { apply estimate_task_failed. rewrite Hrun. reflexivity. }
  rewrite Hest. repeat (split; [reflexivity|]).
  intros u o raw db Htask <- Hne.
  assert (get_ai_estimate svc u (JObj o) db
          = (error_response 500 (JStr ("AI Generation failed: " +:+ exn_msg e)),
             db)) as Hanswer.
  { rewrite (get_ai_estimate_valid svc u o raw db Htask Hne).
    fold est. rewrite Hest. reflexivity. }
  rewrite Hanswer. cbn [fst snd].
  split; [reflexivity|]. split; [reflexivity|].
  split; [eexists; repeat split; reflexivity|]. split; reflexivity.
Qed.

(** C6, as amended.  A reply that is the text of a JSON object, on its own
    or inside a [json] fence or a bare fence, with any white space around
    the text and the markers, is stripped down to that text and parsed;
    the estimate has every entry of the object, a bare-string
    [required_access] wrapped into a one-element array, and beside them
    only the tag success=true and an empty title, each where the object
    has no entry of that name. *)
Theorem C6_fenced_json_reply (svc : service) (task : string) (f : fence)
    (ws1 ws2 body ws3 ws4 : string) (o : dict) :
  blank ws1 = true -> blank ws2 = true -> blank ws3 = true -> blank ws4 = true ->
  plain_ends body = true ->
  json_loads body = Some (JObj o) ->
  fst (generate_with_retry svc task) = Ok (Some (laid_out f ws1 ws2 body ws3 ws4)) ->
  let est := fst (estimate_task svc task) in
  strip_fences (strip (laid_out f ws1 ws2 body ws3 ws4)) = body
  /\ (forall k v, o !! k = Some v ->
        est !! k = Some (if bool_decide (k = "required_access") then wrap_str v else v))
  /\ (forall k, o !! k = None ->
        est !! k = if bool_decide (k = "success") then Some (JBool true)
                   else if bool_decide (k = "title") then Some (JStr EmptyString)
                   else None).
Proof.
  intros B1 B2 B3 B4 Hends Hjson Hrun est.
  pose proof (strip_fences_laid_out ws1 ws2 body ws3 ws4 B1 B2 B3 B4 Hends f)
    as Hstrip.
  assert (est = success_estimate (wrap_required_access o)) as Hest.
  { apply (estimate_task_parsed svc task _ o Hrun). rewrite Hstrip. exact Hjson. }
  split; [exact Hstrip|]. rewrite Hest. split.
  - intros k v Hk.
    rewrite success_estimate_lookup, wrap_required_access_lookup, Hk.
    case_bool_decide; reflexivity.
  - intros k Hk.
    rewrite success_estimate_lookup, wrap_required_access_lookup, Hk.
    case_bool_decide; reflexivity.
Qed.

(** C10.  On a parsed reply the estimate is the literal with success=true
    and the title merged with the parsed object, the entries of the object
    winning: every entry of the object (after the wrapping of
    [required_access]) is in the estimate as it is, so a [success] entry of
    the reply replaces the tag and an [error] entry is carried along; the
    tag is [true] when the reply has no [success] entry. *)
Theorem C10_parsed_keys_take_precedence (svc : service) (task text : string)
    (o : dict) :
  fst (generate_with_retry svc task) = Ok (Some text) ->
  json_loads (strip_fences (strip text)) = Some (JObj o) ->
  let est := fst (estimate_task svc task) in
  let parsed := wrap_required_access o in
  est = merge_over
          (<["success" := JBool true]>
             (<["title" := get_default "title" (JStr EmptyString) parsed]> ∅))
          parsed
  /\ (forall k v, parsed !! k = Some v -> est !! k = Some v)
  /\ (forall v, o !! "success" = Some v -> est !! "success" = Some v)
  /\ (forall v, o !! "error" = Some v -> est !! "error" = Some v)
  /\ (o !! "success" = None -> est !! "success" = Some (JBool true)).
Proof.
  intros Hrun Hjson est parsed.
  assert (est = success_estimate parsed) as Hest
    by exact (estimate_task_parsed svc task text o Hrun Hjson).
  split; [exact Hest|]. rewrite Hest. unfold parsed.
  split; [|split; [|split]].
  - intros k v Hk. rewrite success_estimate_lookup, Hk. reflexivity.
  - intros v Hv.
    rewrite success_estimate_lookup, wrap_required_access_lookup, Hv. reflexivity.
  - intros v Hv.
    rewrite success_estimate_lookup, wrap_required_access_lookup, Hv. reflexivity.
  - intros Hv.
    rewrite success_estimate_lookup, wrap_required_access_lookup, Hv. reflexivity.
Qed.

(** C1, as amended.  Whenever the estimate handler answers 200, the
    estimate it sends has all eight fields; each of [dependencies],
    [required_access] and [suggested_labels] is the value the estimator
    gave, with a bare string wrapped into a one-element array and an
    absent entry replaced by the empty array, so it is never a bare
    string.  The estimates the estimator makes up itself, for a reply that
    is no JSON and for a failed invocation, have all eight fields with
    arrays of strings in the three; after a failed invocation the handler
    sends no estimate. *)
Theorem C1_emitted_estimate_shape (svc : service) (u : Z) (data : json)
    (db : list ticket) :
  (http_status (fst (get_ai_estimate svc u data db)) = 200%Z ->
   exists task d,
     let ai := fst (estimate_task svc task) in
     emitted_estimate (fst (get_ai_estimate svc u data db)) = Some d
     /\ forallb (has_field d) estimate_fields = true
     /\ forall k, k ∈ array_fields ->
          d !! k = Some (match ai !! k with
                         | Some (JStr s) => JArr [JStr s]
                         | Some v => v
                         | None => JArr []
                         end)
          /\ forall s, d !! k <> Some (JStr s))
  /\ (forall task text,
        fst (generate_with_retry svc task) = Ok (Some text) ->
        json_loads (strip_fences (strip text)) = None ->
        well_shaped (fst (estimate_task svc task)) = true)
  /\ (forall task e,
        invocation_fails svc task e ->
        well_shaped (fst (estimate_task svc task)) = true
        /\ forall o raw, data = JObj o -> o !! "task" = Some (JStr raw) ->
             strip raw = task ->
             emitted_estimate (fst (get_ai_estimate svc u data db)) = None).
Proof.
  split; [|split].
  - intros H200.
    destruct (get_ai_estimate_200 svc u data db H200)
      as (o & raw & -> & Htask & Hne & Hsucc & Heq).
    exists (strip raw). eexists. cbn zeta. rewrite Heq.
    split; [apply response_data_estimate|].
    split; [apply sent_estimate_fields|].
    intros k Hk. rewrite (sent_estimate_array_field _ _ k Hk).
    unfold get_default.
    destruct (_ !! k) as [[]|]; cbn; split; first [reflexivity|congruence].
  - intros task text Hrun Hjson.
    rewrite (estimate_task_unparsable svc task text Hrun Hjson). reflexivity.
  - intros task e Hfail.
    destruct (invocation_fails_run svc task e Hfail) as (k & Hrun & _).
    assert (fst (estimate_task svc task) = failure_estimate e) as Hest.
    { apply estimate_task_failed. rewrite Hrun. reflexivity. }
    split; [rewrite Hest; reflexivity|].
    intros o raw -> Htask <-.
    destruct (nonempty (strip raw)) eqn:Hne.
    + rewrite (get_ai_estimate_valid svc u o raw db Htask Hne).
      cbn [fst]. rewrite Hest. reflexivity.
    + unfold get_ai_estimate. cbn [fst obj_get bind]. unfold get_default.
      rewrite Htask. cbn [default from_option id as_str bind]. rewrite Hne.
      reflexivity.
Qed.

(** C7, as amended.  A ticket that the ticket handler adds to the store
    has the status [new] and the lower-cased edited priority of the
    request, [medium] when the request has none; its number is the
    [ticket_number] of the request when that is a truthy value, and
    otherwise a freshly generated one, which has the format [TKT-] and
    eight characters out of [0-9A-F]. *)
Theorem C7_persisted_ticket (u : Z) (data : json) (db : list ticket) (t : ticket) :
  snd (create_final_ticket u data db) = db ++ [t] ->
  status t = "new"
  /\ is_lower_cased (priority t) = true
  /\ (exists o, data = JObj o
        /\ (o !! "edited_priority" = None -> priority t = "medium")
        /\ (forall p, o !! "edited_priority" = Some (JStr p) -> priority t = lower p)
        /\ (forall v, o !! "ticket_number" = Some v -> truthy v = true ->
              ticket_number t = v)
        /\ (truthy (get "ticket_number" o) = false ->
              ticket_number t = JStr (generate_ticket_number u)
              /\ is_ticket_number (ticket_number t) = true)).
Proof.
  intros [Hnew _]%create_final_ticket_store.
  destruct (new_ticket_inv u data t Hnew) as (o & p & -> & Hp & Hst & Hpr & Hno).
  split; [exact Hst|]. split; [rewrite Hpr; apply lower_is_lower_cased|].
  exists o. split; [reflexivity|]. unfold get, get_default in *.
  split; [|split; [|split]].
  - intros Hnone. rewrite Hnone in Hp. injection Hp as <-. rewrite Hpr. reflexivity.
  - intros p' Hsome. rewrite Hsome in Hp. injection Hp as <-. exact Hpr.
  - intros v Hv Htruthy. rewrite Hv in Hno. cbn in Hno.
    rewrite Htruthy in Hno. exact Hno.
  - intros Hfalsy. rewrite Hfalsy in Hno. rewrite Hno.
    split; [reflexivity|]. apply generate_ticket_number_format.
Qed.

(** C8.  The [ticket_id] of an estimate response is the ticket-id
    derivation applied to the stripped task text: two requests with the
    same task text get the same [ticket_id], whatever the model answered
    and whatever was drawn for the ticket number. *)
Theorem C8_ticket_id_deterministic (svc1 svc2 : service) (u1 u2 : Z)
    (o1 o2 : dict) (raw : string) (db1 db2 : list ticket) :
  o1 !! "task" = Some (JStr raw) ->
  o2 !! "task" = Some (JStr raw) ->
  http_status (fst (get_ai_estimate svc1 u1 (JObj o1) db1)) = 200%Z ->
  http_status (fst (get_ai_estimate svc2 u2 (JObj o2) db2)) = 200%Z ->
  exists b1 b2,
    body (fst (get_ai_estimate svc1 u1 (JObj o1) db1)) = JObj b1
    /\ body (fst (get_ai_estimate svc2 u2 (JObj o2) db2)) = JObj b2
    /\ b1 !! "ticket_id" = Some (JStr (_generate_ticket_id (strip raw)))
    /\ b2 !! "ticket_id" = b1 !! "ticket_id".
Proof.
  intros Ht1 Ht2 H1 H2.
  destruct (get_ai_estimate_200 svc1 u1 _ db1 H1)
    as (o1' & raw1 & [= <-] & Ht1' & _ & _ & ->).
  destruct (get_ai_estimate_200 svc2 u2 _ db2 H2)
    as (o2' & raw2 & [= <-] & Ht2' & _ & _ & ->).
  rewrite Ht1 in Ht1'. injection Ht1' as <-.
  rewrite Ht2 in Ht2'. injection Ht2' as <-.
  eexists _, _. repeat split; reflexivity.
Qed.

(** C9, as amended.  When the reply parses to an object without an
    [estimated_time] entry, every estimate the handler sends for it has
    the [estimated_time] [Unknown], and the handler does send one when the
    object has no [success] entry and its reasoning is absent or a string.
    When the reply is no JSON, the estimate sent has the [estimated_time]
    of the fallback, [1 week]. *)
Theorem C9_missing_estimated_time (svc : service) (u : Z) (o : dict)
    (raw text : string) (db : list ticket) :
  o !! "task" = Some (JStr raw) ->
  nonempty (strip raw) = true ->
  fst (generate_with_retry svc (strip raw)) = Ok (Some text) ->
  let r := fst (get_ai_estimate svc u (JObj o) db) in
  (forall reply,
     json_loads (strip_fences (strip text)) = Some (JObj reply) ->
     reply !! "estimated_time" = None ->
     (http_status r = 200%Z ->
      exists d, emitted_estimate r = Some d
                /\ d !! "estimated_time" = Some (JStr "Unknown"))
     /\ (reply !! "success" = None ->
         (reply !! "reasoning" = None
          \/ exists s, reply !! "reasoning" = Some (JStr s)) ->
         http_status r = 200%Z))
  /\ (json_loads (strip_fences (strip text)) = None ->
      http_status r = 200%Z
      /\ exists d, emitted_estimate r = Some d
                   /\ d !! "estimated_time" = Some (JStr "1 week")).
Proof.
  intros Htask Hne Hrun r. subst r.
  rewrite (get_ai_estimate_valid svc u o raw db Htask Hne). cbn [fst].
  split.
  - intros reply Hjson Hnone.
    rewrite (estimate_task_parsed svc (strip raw) text reply Hrun Hjson).
    set (ai := success_estimate (wrap_required_access reply)).
    assert (ai !! "estimated_time" = None) as Hai.
    { unfold ai. rewrite success_estimate_lookup, wrap_required_access_lookup, Hnone.
      reflexivity. }
    split.
    + intros H200.
      destruct (respond_200 u (strip raw) ai _ eq_refl H200) as (_ & ->).
      eexists. split; [apply response_data_estimate|].
      rewrite lookup_insert_ne by discriminate.
      unfold sent_estimate, estimate_of, get_default. rewrite Hai. reflexivity.
    + intros Hsucc Hreason. unfold respond.
      assert (exists s, get_default "reasoning" (JStr EmptyString) ai = JStr s)
        as (s & ->).
      { unfold get_default, ai.
        rewrite success_estimate_lookup, wrap_required_access_lookup.
        destruct Hreason as [-> | (s & ->)]; cbn; eauto. }
      cbn [check_sliceable bind].
      assert (get "success" ai = JBool true) as ->.
      { unfold get, get_default, ai.
        rewrite success_estimate_lookup, wrap_required_access_lookup, Hsucc.
        reflexivity. }
      cbn [truthy]. rewrite success_response_eq. reflexivity.
  - intros Hjson.
    rewrite (estimate_task_unparsable svc (strip raw) text Hrun Hjson).
    split; [reflexivity|]. eexists. split; reflexivity.
Qed.

End Specification.

(* ===================================================================== *)
(** ** The title policy *)
(* ===================================================================== *)

Section TitleFacts.
Import Py Value Shape AIServices AITaskCreator.

(** The title of lines 101-107 follows the word-count policy. *)
Lemma resolve_title_policy (raw_title : json) (task : string) :
  (forall s, raw_title = JStr s -> 3 <= word_count s <= 6 ->
     resolve_title raw_title task = Ok (strip s))
  /\ ((forall s, raw_title = JStr s -> ~ 3 <= word_count s <= 6) ->
      resolve_title raw_title task
      = Ok (if nonempty task
            then capitalize (join " " (firstn 6 (split (strip (replace_newlines task)))))
            else "New Ticket")).
Proof.
  unfold resolve_title, word_count. split.
  - intros s -> [Hlo Hhi].
    apply Nat.leb_le in Hlo, Hhi. rewrite Hlo, Hhi. reflexivity.
  - intros Hout.
    assert (generate_short_title (JStr task) 6
            = Ok (if nonempty task
                  then capitalize (join " " (firstn 6 (split (strip (replace_newlines task)))))
                  else "New Ticket")) as Hshort.
    { unfold generate_short_title. cbn [truthy].
      destruct (nonempty task); reflexivity. }
    destruct raw_title as [| | |s| |]; try exact Hshort.
    destruct ((3 <=? length (split s)) && (length (split s) <=? 6)) eqn:Hin;
      [|exact Hshort].
    apply andb_true_iff in Hin as [Hlo%Nat.leb_le Hhi%Nat.leb_le].
    exfalso. apply (Hout s eq_refl). auto.
Qed.

(** The title that is sent is the [title] entry of the estimate. *)
Lemma emitted_title `{JsonLib} `{TicketIds} (svc : service) (u : Z)
    (data : json) (db : list ticket) :
  http_status (fst (get_ai_estimate svc u data db)) = 200%Z ->
  exists task,
    emitted_field (fst (get_ai_estimate svc u data db)) "title"
    = Some (get_default "title" (JStr task) (fst (estimate_task svc task))).
Proof.
  intros H200.
  destruct (get_ai_estimate_200 svc u data db H200)
    as (o & raw & -> & _ & _ & _ & ->).
  exists (strip raw). reflexivity.
Qed.

End TitleFacts.

(* ===================================================================== *)
(** ** The pipeline on concrete replies *)
(* ===================================================================== *)

Section Runs.
Import Py Value Shape AIServices AITaskCreator Examples.

(** C2.  The title that is sent does not follow the word-count policy:
    for the task [Add user login with email and password] and a reply
    whose title is the single word [Fix], the handler computes the policy
    title [Add user login with email and] and sends [Fix]; for a reply
    without a title it sends the empty title. *)
Theorem C2_emitted_title_bypasses_policy :
  http_status (estimate (answers json_one_word_title) task_login) = 200%Z
  /\ emitted_field (estimate (answers json_one_word_title) task_login) "title"
     = Some (JStr "Fix")
  /\ word_count "Fix" = 1
  /\ resolve_title (JStr "Fix") task_login = Ok "Add user login with email and"
  /\ emitted_field (estimate (answers json_no_title) task_login) "title"
     = Some (JStr EmptyString)
  /\ resolve_title (JStr EmptyString) task_login = Ok "Add user login with email and".
Proof. vm_compute. repeat split; reflexivity. Qed.

(** C1, as stated, fails.  A reply [{"dependencies": "db"}] makes the
    estimator return an estimate with a bare string and without
    [estimated_time]; an endpoint that stays unavailable makes the handler
    answer without any estimate; a reply [{"dependencies": 5}] makes the
    handler send the number, which is no array. *)
Lemma C1_counterexample :
  let est := fst (@estimate_task MiniJson.loads (answers json_bare_dependency) task_login) in
  est !! "dependencies" = Some (JStr "db")
  /\ est !! "estimated_time" = None
  /\ well_shaped est = false
  /\ http_status (estimate down task_login) = 500%Z
  /\ emitted_estimate (estimate down task_login) = None
  /\ http_status (estimate (answers json_number_dependency) task_login) = 200%Z
  /\ emitted_field (estimate (answers json_number_dependency) task_login) "dependencies"
     = Some (JNum 5).
Proof. vm_compute. repeat split; reflexivity. Qed.

(** C6, as stated, fails.  The fenced reply
    [{"success": false, "error": "quota"}] is valid JSON and the estimate
    is tagged success=false. *)
Lemma C6_counterexample :
  MiniJson.loads json_success_false
  = Some (JObj success_false_object)
  /\ fst (@estimate_task MiniJson.loads
            (answers (fenced "```json" json_success_false)) task_login)
       !! "success"
     = Some (JBool false).
Proof. vm_compute. split; reflexivity. Qed.

(** C7, as stated, fails.  A confirmation that carries the ticket number
    [abc] is stored under that number, which has not the format
    [TKT-XXXXXXXX]. *)
Lemma C7_counterexample :
  exists t,
    snd (@create_final_ticket open_store 255 (confirmation (JStr "abc") "HIGH") [])
    = [t]
    /\ ticket_number t = JStr "abc"
    /\ is_ticket_number (ticket_number t) = false.
Proof. eexists. vm_compute. repeat split; reflexivity. Qed.

(** C9, as stated, fails.  For a reply that is no JSON the estimate sent
    has the [estimated_time] [1 week]. *)
Lemma C9_counterexample :
  MiniJson.loads (strip_fences (strip prose)) = None
  /\ http_status (estimate (answers prose) task_login) = 200%Z
  /\ emitted_field (estimate (answers prose) task_login) "estimated_time"
     = Some (JStr "1 week")
  /\ JStr "1 week" <> JStr "Unknown".
Proof. vm_compute. repeat split; (reflexivity || discriminate). Qed.

(** Two unavailable calls, then the reply: the reply, after the delays 2
    and 4. *)
Lemma C3_witness :
  generate_with_retry (recovers json_login) task_login
  = (Ok (Some json_login), [2; 4]%Z)
  /\ length (snd (generate_with_retry (recovers json_login) task_login)) = 2
  /\ (2 < 4)%Z.
Proof.
  exact (proj2 (proj2 (C3_model_invoker_retry (recovers json_login) task_login))
           unavailable unavailable (Some json_login)
           eq_refl eq_refl eq_refl eq_refl eq_refl).
Defined.


Lemma down_fails : invocation_fails down task_login unavailable.
Proof.
  exists 2. split; [unfold max_retries; lia|].
  split; [intros i _; exists unavailable; split; reflexivity|].
  split; [reflexivity|right; reflexivity].
Defined.

(** An endpoint that stays unavailable. *)
Lemma C5_witness :
  invocation_fails down task_login unavailable
  /\ fst (@estimate_task MiniJson.loads down task_login) !! "success"
     = Some (JBool false)
  /\ http_status (estimate down task_login) = 500%Z
  /\ exists b,
       body (estimate down task_login) = JObj b
       /\ b !! "success" = Some (JBool false)
       /\ b !! "error"
          = Some (JStr "AI Generation failed: 503 UNAVAILABLE. The model is overloaded.")
       /\ b !! "estimate" = None.
Proof.
  split; [exact down_fails|].
  destruct (@C5_invocation_failure MiniJson.loads digest_id
              down task_login unavailable down_fails)
    as (Hsucc & _ & _ & _ & _ & _ & Hhandler).
  split; [exact Hsucc|].
  assert (({[ "task" := JStr task_login ]} : dict) !! "task"
          = Some (JStr task_login)) as Htask by (vm_compute; reflexivity).
  destruct (Hhandler 255%Z {[ "task" := JStr task_login ]} task_login []
              Htask eq_refl eq_refl)
    as (_ & Hstatus & (b & Hb & Hbs & Hbe & Hbn & _) & _).
  split; [exact Hstatus|].
  exists b. split; [exact Hb|]. split; [exact Hbs|]. split; [exact Hbe|exact Hbn].
Defined.

(** The reply of the end-to-end scenario, inside a [json] fence. *)
Lemma C6_witness :
  laid_out JsonFence EmptyString nl json_login nl nl = fenced "```json" json_login
  /\ strip_fences (strip (fenced "```json" json_login)) = json_login
  /\ fst (@estimate_task MiniJson.loads
            (answers (fenced "```json" json_login)) task_login) !! "title"
     = Some (JStr "Add user email login")
  /\ fst (@estimate_task MiniJson.loads
            (answers (fenced "```json" json_login)) task_login) !! "success"
     = Some (JBool true).
Proof.
  split; [reflexivity|].
  destruct (@C6_fenced_json_reply MiniJson.loads
              (answers (fenced "```json" json_login)) task_login
              JsonFence EmptyString nl json_login nl nl login_object)
    as (Hstrip & Hin & Hout); try (vm_compute; reflexivity).
  split; [exact Hstrip|]. split.
  - exact (Hin "title" (JStr "Add user email login") eq_refl).
  - exact (Hout "success" eq_refl).
Defined.

(** A reply that says [success: false] itself. *)
Lemma C10_witness :
  MiniJson.loads (strip_fences (strip (fenced "```json" json_success_false)))
  = Some (JObj success_false_object)
  /\ fst (@estimate_task MiniJson.loads
            (answers (fenced "```json" json_success_false)) task_login) !! "success"
     = Some (JBool false)
  /\ fst (@estimate_task MiniJson.loads
            (answers (fenced "```json" json_success_false)) task_login) !! "error"
     = Some (JStr "quota").
Proof.
  assert (MiniJson.loads (strip_fences (strip (fenced "```json" json_success_false)))
          = Some (JObj success_false_object)) as Hjson
    by (vm_compute; reflexivity).
  split; [exact Hjson|].
  destruct (@C10_parsed_keys_take_precedence MiniJson.loads
              (answers (fenced "```json" json_success_false)) task_login
              (fenced "```json" json_success_false) success_false_object
              eq_refl Hjson) as (_ & _ & Hsucc & Herr & _).
  split; [exact (Hsucc (JBool false) eq_refl)|exact (Herr (JStr "quota") eq_refl)].
Defined.

(** A reply with a bare-string dependency and nothing else. *)
Lemma C1_witness :
  http_status (estimate (answers json_bare_dependency) task_login) = 200%Z
  /\ exists task d,
       emitted_estimate (estimate (answers json_bare_dependency) task_login) = Some d
       /\ forallb (has_field d) estimate_fields = true
       /\ forall k, k ∈ array_fields ->
            d !! k
            = Some (match fst (@estimate_task MiniJson.loads
                                 (answers json_bare_dependency) task) !! k with
                    | Some (JStr s) => JArr [JStr s]
                    | Some v => v
                    | None => JArr []
                    end)
            /\ forall s, d !! k <> Some (JStr s).
Proof.
  assert (http_status (estimate (answers json_bare_dependency) task_login) = 200%Z)
    as H200 by (vm_compute; reflexivity).
  split; [exact H200|].
  exact (proj1 (@C1_emitted_estimate_shape MiniJson.loads digest_id
                  (answers json_bare_dependency) 255 (request task_login) [])
           H200).
Defined.

(** A confirmation without a ticket number and with the priority [HIGH]. *)
Lemma C7_witness :
  exists t,
    snd (@create_final_ticket open_store 255 (confirmation JNull "HIGH") [])
    = [] ++ [t]
    /\ status t = "new"
    /\ is_lower_cased (priority t) = true
    /\ priority t = "high"
    /\ ticket_number t = JStr "TKT-00000000".
Proof.
  eexists. split; [vm_compute; reflexivity|].
  match goal with
  | |- status ?t = _ /\ _ =>
      destruct (@C7_persisted_ticket open_store 255
                  (confirmation JNull "HIGH") [] t eq_refl)
        as (Hst & Hlc & _)
  end.
  split; [exact Hst|]. split; [exact Hlc|]. split; reflexivity.
Defined.

(** The same task sent twice: a parsed reply, then prose and another draw. *)
Lemma C8_witness :
  exists b1 b2,
    body (fst (@get_ai_estimate MiniJson.loads digest_id
                 (answers (fenced "```json" json_login)) 255
                 (request task_login) [])) = JObj b1
    /\ body (fst (@get_ai_estimate MiniJson.loads digest_id
                    (answers prose) 7 (request task_login) [])) = JObj b2
    /\ b1 !! "ticket_id" = Some (JStr (digest_id task_login))
    /\ b2 !! "ticket_id" = b1 !! "ticket_id".
Proof.
  assert (({[ "task" := JStr task_login ]} : dict) !! "task"
          = Some (JStr task_login)) as Htask by (vm_compute; reflexivity).
  assert (http_status (fst (@get_ai_estimate MiniJson.loads digest_id
                              (answers (fenced "```json" json_login)) 255
                              (request task_login) [])) = 200%Z)
    as H1 by (vm_compute; reflexivity).
  assert (http_status (fst (@get_ai_estimate MiniJson.loads digest_id
                              (answers prose) 7 (request task_login) [])) = 200%Z)
    as H2 by (vm_compute; reflexivity).
  exact (@C8_ticket_id_deterministic MiniJson.loads digest_id
           (answers (fenced "```json" json_login)) (answers prose) 255 7
           {[ "task" := JStr task_login ]} {[ "task" := JStr task_login ]}
           task_login [] [] Htask Htask H1 H2).
Defined.

(** A reply without [estimated_time]. *)
Lemma C9_witness :
  bare_dependency_object !! "estimated_time" = None
  /\ http_status (estimate (answers json_bare_dependency) task_login) = 200%Z
  /\ exists d,
       emitted_estimate (estimate (answers json_bare_dependency) task_login) = Some d
       /\ d !! "estimated_time" = Some (JStr "Unknown").
Proof.
  assert (({[ "task" := JStr task_login ]} : dict) !! "task"
          = Some (JStr task_login)) as Htask by (vm_compute; reflexivity).
  destruct (@C9_missing_estimated_time MiniJson.loads digest_id
              (answers json_bare_dependency) 255 {[ "task" := JStr task_login ]}
              task_login json_bare_dependency [] Htask eq_refl eq_refl)
    as (Hparsed & _).
  destruct (Hparsed bare_dependency_object) as (Hsent & Hsends);
    try (vm_compute; reflexivity).
  assert (http_status (estimate (answers json_bare_dependency) task_login) = 200%Z)
    as H200 by (apply Hsends; [reflexivity|left; reflexivity]).
  split; [reflexivity|]. split; [exact H200|exact (Hsent H200)].
Defined.

End Runs.

(* ===================================================================== *)
(** ** Words and short titles *)
(* ===================================================================== *)

Section WordFacts.
Import Py Value Shape AITaskCreator.

Lemma split_blank (ws : string) : all_chars isspace ws = true -> split ws = [].
Proof.
  induction ws as [|c ws IH]; [reflexivity|].
  cbn [all_chars split]. intros [Hc Hws]%andb_true_iff.
  rewrite Hc. auto.
Qed.

Lemma split_lstrip (s : string) : split (lstrip s) = split s.
Proof.
  induction s as [|c s IH]; [reflexivity|].
  cbn [lstrip]. destruct (isspace c) eqn:Hc; [|reflexivity].
  cbn [split]. rewrite Hc. exact IH.
Qed.

Lemma rstrip_empty (s : string) :
  rstrip s = EmptyString -> all_chars isspace s = true.
Proof.
  induction s as [|c s IH]; [reflexivity|].
  cbn [rstrip all_chars]. destruct (rstrip s) eqn:E; [|discriminate].
  destruct (isspace c); [intros _; auto|discriminate].
Qed.

Lemma rstrip_head (s : string) c r :
  rstrip s = String c r -> exists s', s = String c s'.
Proof.
  destruct s as [|x s]; [discriminate|]. cbn [rstrip].
  destruct (rstrip s); [destruct (isspace x)|]; intros [= <- _]; eauto.
Qed.

Lemma word_ends_before_blank (s : string) :
  all_chars isspace s = true -> word_ends_before s = true.
Proof. destruct s; [reflexivity|]. cbn. intros [-> _]%andb_true_iff. reflexivity. Qed.

Lemma split_rstrip (s : string) : split (rstrip s) = split s.
Proof.
  induction s as [|c s IH]; [reflexivity|].
  cbn [rstrip]. destruct (rstrip s) as [|x r] eqn:E.
  - apply rstrip_empty in E.
    cbn [split]. rewrite (split_blank s E), (word_ends_before_blank s E).
    destruct (isspace c) eqn:Hc; cbn [split word_ends_before]; rewrite ?Hc;
      reflexivity.
  - destruct (rstrip_head s x r E) as (s' & ->).
    cbn [split] in IH |- *. cbn [word_ends_before]. rewrite IH. reflexivity.
Qed.

(** [strip] and the replacement of newlines leave the words as they are. *)
Lemma split_strip (s : string) : split (strip s) = split s.
Proof. unfold strip. rewrite split_rstrip. apply split_lstrip. Qed.

Lemma split_replace_newlines (s : string) : split (replace_newlines s) = split s.
Proof.
  unfold replace_newlines.
  assert (forall c, isspace (if Ascii.eqb c (ascii_of_nat 10) then " "%char else c)
                    = isspace c) as Hsp.
  { intros c. destruct (Ascii.eqb_spec c (ascii_of_nat 10)) as [->|]; reflexivity. }
  assert (forall c, isspace c = false ->
                    (if Ascii.eqb c (ascii_of_nat 10) then " "%char else c) = c) as Hid.
  { intros c Hc. destruct (Ascii.eqb_spec c (ascii_of_nat 10)) as [->|];
      [discriminate|reflexivity]. }
  induction s as [|c s IH]; [reflexivity|].
  cbn [map_chars split]. rewrite Hsp, IH.
  destruct (isspace c) eqn:Hc; [reflexivity|]. rewrite (Hid c Hc).
  assert (word_ends_before
            (map_chars (fun c => if Ascii.eqb c (ascii_of_nat 10) then " "%char else c) s)
          = word_ends_before s) as ->; [|reflexivity].
  destruct s; [reflexivity|]. cbn. apply Hsp.
Qed.

(** What [split] returns are words. *)
Lemma split_words (s : string) : forallb is_word (split s) = true.
Proof.
  induction s as [|c s IH]; [reflexivity|].
  cbn [split]. destruct (isspace c) eqn:Hc; [exact IH|].
  destruct (word_ends_before s).
  - cbn [forallb]. rewrite IH. unfold is_word. cbn. rewrite Hc. reflexivity.
  - destruct (split s) as [|w ws]; cbn [forallb] in IH |- *.
    + unfold is_word. cbn. rewrite Hc. reflexivity.
    + apply andb_true_iff in IH as [Hw ->].
      unfold is_word in Hw |- *. apply andb_true_iff in Hw as [_ Hw].
      cbn. rewrite Hc, Hw. reflexivity.
Qed.

(** A word in front of a blank is the first word. *)
Lemma split_word_app (w : string) c (rest : string) :
  is_word w = true -> isspace c = true ->
  split (w +:+ String c rest) = w :: split rest.
Proof.
  intros Hw Hc. induction w as [|x w IH]; [discriminate|].
  unfold is_word in Hw. cbn [nonempty all_chars andb] in Hw.
  apply andb_true_iff in Hw as [Hx%negb_true_iff Hrest].
  rewrite string_app_cons. cbn [split]. rewrite Hx.
  destruct w as [|y w].
  - rewrite string_app_empty_l. cbn [word_ends_before split]. rewrite Hc. reflexivity.
  - rewrite IH by (unfold is_word; cbn [nonempty andb]; exact Hrest).
    rewrite string_app_cons. cbn [word_ends_before].
    cbn [all_chars] in Hrest. apply andb_true_iff in Hrest as [Hy%negb_true_iff _].
    rewrite Hy. reflexivity.
Qed.

Lemma split_word (w : string) : is_word w = true -> split w = [w].
Proof.
  intros Hw. induction w as [|x w IH]; [discriminate|].
  unfold is_word in Hw. cbn [nonempty all_chars andb] in Hw.
  apply andb_true_iff in Hw as [Hx%negb_true_iff Hrest].
  cbn [split]. rewrite Hx. destruct w as [|y w]; [reflexivity|].
  rewrite IH by (unfold is_word; cbn [nonempty andb]; exact Hrest).
  cbn [word_ends_before]. cbn [all_chars] in Hrest.
  apply andb_true_iff in Hrest as [Hy%negb_true_iff _]. rewrite Hy. reflexivity.
Qed.

(** Joining words with a blank and splitting again gives the words back. *)
Lemma split_join (ws : list string) :
  forallb is_word ws = true -> split (join " " ws) = ws.
Proof.
  induction ws as [|w ws IH]; [reflexivity|].
  cbn [forallb]. intros [Hw Hws]%andb_true_iff.
  destruct ws as [|w' ws]; [exact (split_word w Hw)|].
  cbn [join] in IH |- *.
  change (" " +:+ ?r) with (String " " r).
  rewrite split_word_app by (exact Hw || reflexivity).
  rewrite IH by exact Hws. reflexivity.
Qed.

Lemma forallb_firstn {A} (p : A -> bool) n (l : list A) :
  forallb p l = true -> forallb p (firstn n l) = true.
Proof.
  revert l. induction n as [|n IH]; intros [|x l]; try reflexivity.
  cbn [firstn forallb]. intros [-> Hl]%andb_true_iff. exact (IH l Hl).
Qed.

Lemma lower_app (a b : string) : lower (a +:+ b) = lower a +:+ lower b.
Proof.
  unfold lower. induction a as [|c a IH]; [reflexivity|].
  rewrite string_app_cons. cbn [map_chars]. rewrite IH. reflexivity.
Qed.

Lemma join_cons (sep w w' : string) (ws : list string) :
  join sep (w :: w' :: ws) = w +:+ sep +:+ join sep (w' :: ws).
Proof. reflexivity. Qed.

Lemma lower_join (ws : list string) : lower (join " " ws) = join " " (map lower ws).
Proof.
  induction ws as [|w ws IH]; [reflexivity|].
  destruct ws as [|w' ws]; [reflexivity|].
  change (map lower (w :: w' :: ws)) with (lower w :: lower w' :: map lower ws).
  rewrite !join_cons, !lower_app, IH. reflexivity.
Qed.

(** Capitalizing a joined text capitalizes its first word and lower-cases
    the others. *)
Lemma capitalize_join (ws : list string) :
  forallb is_word ws = true ->
  capitalize (join " " ws) = join " " (title_words ws).
Proof.
  destruct ws as [|w ws]; [reflexivity|].
  cbn [forallb]. intros [Hw _]%andb_true_iff.
  destruct w as [|c w]; [discriminate|].
  destruct ws as [|w' ws]; [reflexivity|].
  change (title_words (String c w :: w' :: ws))
    with (capitalize (String c w) :: lower w' :: map lower ws).
  rewrite !join_cons, string_app_cons. cbn [capitalize].
  rewrite lower_app, (lower_app " "), lower_join, string_app_cons. reflexivity.
Qed.

Lemma case_keeps_space (c : ascii) :
  isspace (upper_char c) = isspace c /\ isspace (lower_char c) = isspace c.
Proof. destruct c as [[] [] [] [] [] [] [] []]; split; reflexivity. Qed.

Lemma lower_word (w : string) : is_word w = true -> is_word (lower w) = true.
Proof.
  unfold is_word. intros [Hne Hall]%andb_true_iff. apply andb_true_iff. split.
  - destruct w; [discriminate|reflexivity].
  - apply (all_chars_map_chars (fun c => negb (isspace c))); [|exact Hall].
    intros c Hc. rewrite (proj2 (case_keeps_space c)). exact Hc.
Qed.

Lemma title_words_words (ws : list string) :
  forallb is_word ws = true -> forallb is_word (title_words ws) = true.
Proof.
  destruct ws as [|w ws]; [reflexivity|].
  cbn [forallb title_words]. intros [Hw Hws]%andb_true_iff.
  apply andb_true_iff. split.
  - destruct w as [|c w]; [discriminate|].
    pose proof (lower_word (String c w) Hw) as Hl.
    unfold is_word in Hw, Hl |- *. cbn in Hw, Hl |- *.
    rewrite (proj1 (case_keeps_space c)).
    rewrite (proj2 (case_keeps_space c)) in Hl.
    apply andb_true_iff in Hw as [-> _]. apply andb_true_iff in Hl as [_ ->].
    reflexivity.
  - clear Hw. induction ws as [|x ws IH]; [reflexivity|].
    cbn [forallb map] in Hws |- *. apply andb_true_iff in Hws as [Hx Hws].
    rewrite (lower_word x Hx). exact (IH Hws).
Qed.

Lemma length_title_words (ws : list string) : length (title_words ws) = length ws.
Proof. destruct ws; [reflexivity|]. cbn. rewrite length_map. reflexivity. Qed.

End WordFacts.

Section ShortTitle.
Import Py Value Shape AITaskCreator.

(** The short title of a non-empty text, from the words of the text. *)
Lemma short_title_join (task : string) (max_words : nat) :
  nonempty task = true ->
  generate_short_title (JStr task) max_words
  = Ok (join " " (title_words (firstn max_words (split task)))).
Proof.
  intros Hne. unfold generate_short_title. cbn [truthy]. rewrite Hne.
  cbn [negb as_str bind].
  rewrite split_strip, split_replace_newlines.
  rewrite (capitalize_join _ (forallb_firstn is_word max_words _ (split_words task))).
  reflexivity.
Qed.

(** X1.  For a non-empty task text of ASCII characters the short title is
    the join, with single blanks, of the first [max_words] words of the
    text, the first word capitalized and the others lower-cased; splitting
    the title gives these words back, so it has at most [max_words] words,
    and neither the replacement of newlines nor the stripping changes which
    words they are. *)
Theorem short_title_words (task : string) (max_words : nat) :
  nonempty task = true ->
  is_ascii task = true ->
  exists t,
    generate_short_title (JStr task) max_words = Ok t
    /\ t = join " " (title_words (firstn max_words (split task)))
    /\ split t = title_words (firstn max_words (split task))
    /\ word_count t <= max_words.
Proof.
  intros Hne _. eexists. split; [apply short_title_join, Hne|].
  split; [reflexivity|].
  pose proof (forallb_firstn is_word max_words _ (split_words task)) as Hwords.
  assert (split (join " " (title_words (firstn max_words (split task))))
          = title_words (firstn max_words (split task))) as Hsplit
    by (apply split_join, title_words_words, Hwords).
  split; [exact Hsplit|].
  unfold word_count. rewrite Hsplit, length_title_words, length_firstn. lia.
Qed.

(** X2.  A falsy task (the empty string, [None], [0], [False], an empty
    list or dictionary) gives the title [New Ticket]; a task that is not
    empty but consists of white space only gives the empty title. *)
Theorem short_title_of_nothing (max_words : nat) :
  (forall v, truthy v = false -> generate_short_title v max_words = Ok "New Ticket")
  /\ (forall task, nonempty task = true -> blank task = true ->
        generate_short_title (JStr task) max_words = Ok EmptyString).
Proof.
  split.
  - intros v Hv. unfold generate_short_title. rewrite Hv. reflexivity.
  - intros task Hne Hblank.
    rewrite (short_title_join task max_words Hne), (split_blank task Hblank).
    destruct max_words; reflexivity.
Qed.

(** A truthy task that is no string has no [replace]. *)
Lemma short_title_not_str (v : json) (max_words : nat) :
  truthy v = true -> is_str v = false ->
  generate_short_title v max_words = Raise (AttributeError v "replace").
Proof.
  intros Hv Hstr. unfold generate_short_title. rewrite Hv.
  destruct v; try reflexivity; discriminate.
Qed.

End ShortTitle.

Section TicketNumbers.
Import Py Value Shape AITaskCreator.

Lemma hex_add (n m : nat) (u : Z) :
  hex (n + m) u = hex n (u / 16 ^ Z.of_nat m) +:+ hex m u.
Proof.
  revert u. induction m as [|m IH]; intros u.
  - rewrite Nat.add_0_r. cbn [Z.of_nat hex]. rewrite Z.pow_0_r, Z.div_1_r.
    symmetry. apply string_app_empty_r.
  - replace (n + S m) with (S (n + m)) by lia. cbn [hex].
    rewrite IH, string_app_assoc. do 2 f_equal.
    rewrite Z.div_div by lia.
    rewrite Nat2Z.inj_succ, Z.pow_succ_r by lia. reflexivity.
Qed.

(** X3.  The ticket number shows the 32 highest bits of the 128-bit UUID
    and nothing else: it is [TKT-] and the eight upper-case hexadecimal
    digits of [u / 2^96], so two draws that agree on these bits get the
    same ticket number. *)
Theorem ticket_number_top_bits (u v : Z) :
  generate_ticket_number u = "TKT-" +:+ upper (hex 8 (u / 2 ^ 96))
  /\ ((u / 2 ^ 96 = v / 2 ^ 96)%Z ->
      generate_ticket_number u = generate_ticket_number v).
Proof.
  assert (forall w, generate_ticket_number w = "TKT-" +:+ upper (hex 8 (w / 2 ^ 96)))
    as Hnum.
  { intros w. unfold generate_ticket_number, str_uuid.
    assert (String.length (take 8 (hex 32 w)) = 8) as Hlen8.
    { apply length_take. rewrite (proj1 (hex_shape 32 w)). lia. }
    rewrite <- Hlen8 at 1. rewrite take_app.
    change 32 with (8 + 24). rewrite hex_add.
    replace 8 with (String.length (hex 8 (w / 16 ^ Z.of_nat 24))) at 1
      by apply (proj1 (hex_shape 8 _)).
    rewrite take_app. reflexivity. }
  split; [apply Hnum|]. intros Heq. rewrite !Hnum, Heq. reflexivity.
Qed.

End TicketNumbers.

(* ===================================================================== *)
(** ** More on the estimate handler *)
(* ===================================================================== *)

Section EstimateHandler.
Import Py Value Shape AIServices AITaskCreator.
Context {json_lib : JsonLib} {ticket_ids : TicketIds}.

Lemma strip_blank (ws : string) : all_chars isspace ws = true -> strip ws = EmptyString.
Proof.
  intros Hws. unfold strip.
  assert (lstrip ws = EmptyString) as ->; [|reflexivity].
  induction ws as [|c ws IH]; [reflexivity|].
  cbn [all_chars lstrip] in Hws |- *.
  apply andb_true_iff in Hws as [-> Hws]. auto.
Qed.

(** What the handler does once the request body is known to be an object. *)
Lemma get_ai_estimate_object (svc : service) (u : Z) (o : dict)
    (db : list ticket) :
  fst (get_ai_estimate svc u (JObj o) db)
  = try_except
      (task <- as_str (default (JStr EmptyString) (o !! "task")) "strip" ;;
       if negb (nonempty (strip task)) then
         Ok (error_response 400 (JStr "Task description is required"))
       else respond u (strip task) (fst (estimate_task svc (strip task))))
      (fun e => error_response 500 (JStr (exn_msg e))).
Proof. reflexivity. Qed.

(** The answers of [respond]. *)
Lemma respond_cases (u : Z) (task : string) (ai : dict) :
  let r := try_except (respond u task ai)
             (fun e => error_response 500 (JStr (exn_msg e))) in
  match check_sliceable (get_default "reasoning" (JStr EmptyString) ai) with
  | Raise e => r = error_response 500 (JStr (exn_msg e))
  | Ok _ =>
      if truthy (get "success" ai) then
        r = Response 200
              (JObj (response_data (_generate_ticket_id task)
                       (generate_ticket_number u) task ai (sent_estimate ai)))
      else
        r = error_response 500 (get_default "error" (JStr "AI generation failed") ai)
  end.
Proof.
  unfold respond.
  destruct (check_sliceable _) as [[]|e]; cbn [bind try_except]; [|reflexivity].
  destruct (truthy (get "success" ai)); [|reflexivity].
  cbn zeta. rewrite success_response_eq. reflexivity.
Qed.

Lemma check_sliceable_spec (v : json) :
  if sliceable v then check_sliceable v = Ok tt
  else exists e, check_sliceable v = Raise e.
Proof. destruct v; cbn; eauto. Qed.

(** X4.  A request whose body is an object without a [task] entry, or with
    a [task] that is empty or white space only, is answered 400 with
    [Task description is required], whatever the endpoint would do. *)
Theorem blank_task_rejected (svc : service) (u : Z) (o : dict)
    (db : list ticket) :
  (o !! "task" = None
   \/ exists raw, o !! "task" = Some (JStr raw) /\ blank raw = true) ->
  get_ai_estimate svc u (JObj o) db
  = (error_response 400 (JStr "Task description is required"), db).
Proof.
  intros Htask.
  assert (fst (get_ai_estimate svc u (JObj o) db)
          = error_response 400 (JStr "Task description is required")) as Hr.
  { rewrite get_ai_estimate_object.
    destruct Htask as [-> | (raw & -> & Hblank)]; [reflexivity|].
    cbn [default from_option id as_str bind].
    rewrite (strip_blank raw Hblank). reflexivity. }
  rewrite <- Hr. reflexivity.
Qed.

(** X5.  A request body that is no object, or whose [task] is present and
    no string (a number, [null], a list), is answered 500 with the text of
    the attribute error, not 400. *)
Theorem ill_typed_request_fails (svc : service) (u : Z) (data : json)
    (db : list ticket) :
  ((forall o, data <> JObj o) ->
   get_ai_estimate svc u data db
   = (error_response 500 (JStr (exn_msg (AttributeError data "get"))), db))
  /\ (forall o v, data = JObj o -> o !! "task" = Some v -> is_str v = false ->
        get_ai_estimate svc u data db
        = (error_response 500 (JStr (exn_msg (AttributeError v "strip"))), db)).
Proof.
  split.
  - intros Hno. destruct data; try reflexivity. exfalso. eapply Hno. reflexivity.
  - intros o v -> Htask Hstr.
    assert (fst (get_ai_estimate svc u (JObj o) db)
            = error_response 500 (JStr (exn_msg (AttributeError v "strip")))) as Hr.
    { rewrite get_ai_estimate_object, Htask.
      destruct v; try reflexivity; discriminate. }
    rewrite <- Hr. reflexivity.
Qed.



(** X7.  A reply that parses to an object whose [reasoning] is neither
    absent nor a string nor a list (a number, [null], an object) makes the
    handler answer 500, although the estimator reported an estimate. *)
Theorem unsliceable_reasoning_fails (svc : service) (u : Z) (o : dict)
    (raw text : string) (db : list ticket) (reply : dict) (v : json) :
  o !! "task" = Some (JStr raw) -> nonempty (strip raw) = true ->
  fst (generate_with_retry svc (strip raw)) = Ok (Some text) ->
  json_loads (strip_fences (strip text)) = Some (JObj reply) ->
  reply !! "reasoning" = Some v -> sliceable v = false ->
  fst (estimate_task svc (strip raw)) !! "reasoning" = Some v
  /\ exists m, get_ai_estimate svc u (JObj o) db = (error_response 500 (JStr m), db).
Proof.
  intros Htask Hne Hrun Hjson Hreason Hslice.
  rewrite (get_ai_estimate_valid svc u o raw db Htask Hne).
  rewrite (estimate_task_parsed svc (strip raw) text reply Hrun Hjson).
  assert (success_estimate (wrap_required_access reply) !! "reasoning" = Some v)
    as Hai.
  { rewrite success_estimate_lookup, wrap_required_access_lookup, Hreason.
    reflexivity. }
  split; [exact Hai|].
  pose proof (respond_cases u (strip raw)
                (success_estimate (wrap_required_access reply))) as Hcases.
  cbn zeta in Hcases. unfold get_default in Hcases at 1. rewrite Hai in Hcases.
  cbn [default from_option id] in Hcases.
  pose proof (check_sliceable_spec v) as Hspec. rewrite Hslice in Hspec.
  destruct Hspec as (e & He). rewrite He in Hcases. rewrite Hcases. eauto.
Qed.

(** X8.  A reply that parses to an object with a falsy [success] entry
    ([false], [0], [null], an empty string, list or object) makes the
    handler answer 500 with the [error] entry of the reply, or with
    [AI generation failed] when the reply has none. *)
Theorem reply_success_false_fails (svc : service) (u : Z) (o : dict)
    (raw text : string) (db : list ticket) (reply : dict) (v : json) :
  o !! "task" = Some (JStr raw) -> nonempty (strip raw) = true ->
  fst (generate_with_retry svc (strip raw)) = Ok (Some text) ->
  json_loads (strip_fences (strip text)) = Some (JObj reply) ->
  reply !! "success" = Some v -> truthy v = false ->
  sliceable (get_default "reasoning" (JStr EmptyString) reply) = true ->
  get_ai_estimate svc u (JObj o) db
  = (error_response 500 (get_default "error" (JStr "AI generation failed") reply),
     db).
Proof.
  intros Htask Hne Hrun Hjson Hsucc Hfalsy Hslice.
  rewrite (get_ai_estimate_valid svc u o raw db Htask Hne).
  rewrite (estimate_task_parsed svc (strip raw) text reply Hrun Hjson).
  set (ai := success_estimate (wrap_required_access reply)).
  assert (forall k, k <> "required_access" -> k <> "success" -> k <> "title" ->
                    ai !! k = reply !! k) as Hsame.
  { intros k H1 H2 H3. unfold ai.
    rewrite success_estimate_lookup, wrap_required_access_lookup.
    rewrite !bool_decide_eq_false_2 by assumption.
    destruct (reply !! k); reflexivity. }
  assert (get "success" ai = v) as Hv.
  { unfold get, get_default, ai.
    rewrite success_estimate_lookup, wrap_required_access_lookup, Hsucc.
    reflexivity. }
  pose proof (respond_cases u (strip raw) ai) as Hcases. cbn zeta in Hcases.
  unfold get_default in Hcases at 1. rewrite Hsame in Hcases by discriminate.
  fold (get_default "reasoning" (JStr EmptyString) reply) in Hcases.
  pose proof (check_sliceable_spec (get_default "reasoning" (JStr EmptyString) reply))
    as Hspec.
  rewrite Hslice in Hspec. rewrite Hspec, Hv, Hfalsy in Hcases.
  rewrite Hcases. unfold get_default. rewrite Hsame by discriminate. reflexivity.
Qed.

(** X9.  With the estimator that stands in when the estimation service
    cannot be imported, every task is answered 200 with the task text itself
    as title, the stand-in values as estimate and the reasoning marked as
    a fallback response. *)
Theorem stub_estimator_response (u : Z) (task : string) :
  exists b e,
    respond u task stub_estimate = Ok (Response 200 (JObj b))
    /\ b !! "title" = Some (JStr task)
    /\ b !! "task" = Some (JStr task)
    /\ b !! "estimate" = Some (JObj e)
    /\ e !! "estimated_time" = Some (JStr "2 days")
    /\ e !! "priority" = Some (JStr "Medium")
    /\ e !! "dependencies" = Some (JArr [JStr "Initial setup"])
    /\ e !! "required_access" = Some (JArr [JStr "Backend"])
    /\ e !! "suggested_labels" = Some (JArr [JStr "feature"])
    /\ e !! "reasoning" = Some (JStr "Basic implementation (FALLBACK RESPONSE)").
Proof.
  eexists _, _. unfold respond. cbn [check_sliceable bind].
  change (truthy (get "success" stub_estimate)) with true. cbn iota.
  rewrite success_response_eq. repeat split; reflexivity.
Qed.

End EstimateHandler.

(* ===================================================================== *)
(** ** More on the ticket handler *)
(* ===================================================================== *)

Section TicketHandler.
Import Py Value Shape AIServices AITaskCreator.
Context {json_lib : JsonLib} {ticket_ids : TicketIds} {ticket_store : TicketStore}.

(** The entries read before the priority do not stop the handler when the
    task is falsy or a string. *)
Lemma new_ticket_raises (u : Z) (o : dict) :
  (exists v, o !! "task" = Some v /\ truthy v = true /\ is_str v = false)
  \/ (exists v, o !! "edited_priority" = Some v /\ is_str v = false)
  \/ (exists v, o !! "estimate" = Some v /\ forall e, v <> JObj e) ->
  exists e, new_ticket u (JObj o) = Raise e.
Proof.
  intros Hbad. unfold new_ticket. cbn [obj_get bind].
  destruct (generate_short_title (get_default "task" (JStr "New Ticket") o) 6)
    as [short|e] eqn:Hshort; [|eauto].
  cbn [bind].
  destruct (get_default "edited_priority" (JStr "medium") o) as [| | |p| |] eqn:Hp;
    try (cbn; eauto; fail).
  cbn [as_str bind].
  destruct (get_default "estimate" (JObj ∅) o) as [| | | | |est] eqn:Hest;
    try (cbn; eauto; fail).
  exfalso. unfold get_default in *.
  destruct Hbad as [(v & Hv & Htruthy & Hstr) | [(v & Hv & Hstr) | (v & Hv & Hno)]].
  - rewrite Hv in Hshort. cbn [default from_option id] in Hshort.
    rewrite (short_title_not_str v 6 Htruthy Hstr) in Hshort. discriminate.
  - rewrite Hv in Hp. cbn in Hp. subst v. discriminate.
  - rewrite Hv in Hest. cbn in Hest. exact (Hno est Hest).
Qed.

(** X11.  A confirmation whose [edited_priority] is present and no string,
    or whose [estimate] is present and no object (so also [null] for
    either), is answered 500 and nothing is stored: the defaults [medium]
    and the empty estimate stand in for absent entries only. *)
Theorem ill_typed_confirmation_fails (u : Z) (o : dict) (db : list ticket) :
  (exists v, o !! "edited_priority" = Some v /\ is_str v = false)
  \/ (exists v, o !! "estimate" = Some v /\ forall e, v <> JObj e) ->
  exists e, create_final_ticket u (JObj o) db
            = (error_response 500 (JStr (exn_msg e)), db).
Proof.
  intros Hbad.
  destruct (new_ticket_raises u o (or_intror Hbad)) as (e & He).
  exists e. unfold create_final_ticket. rewrite He. reflexivity.
Qed.

(** X12.  The short title is computed from the [task] of a confirmation
    even when the confirmation brings its own [title]: a [task] that is
    truthy and no string (a number, a list) is answered 500 with the
    attribute error, and nothing is stored, whatever else the confirmation
    holds. *)
Theorem non_string_task_fails (u : Z) (o : dict) (db : list ticket) (v : json) :
  o !! "task" = Some v -> truthy v = true -> is_str v = false ->
  create_final_ticket u (JObj o) db
  = (error_response 500 (JStr (exn_msg (AttributeError v "replace"))), db).
Proof.
  intros Hv Htruthy Hstr.
  assert (get_default "task" (JStr "New Ticket") o = v) as Htask
    by (unfold get_default; rewrite Hv; reflexivity).
  unfold create_final_ticket, new_ticket. cbn [obj_get bind].
  rewrite Htask, (short_title_not_str v 6 Htruthy Hstr). reflexivity.
Qed.

(** X13.  A confirmation that is an object without any of the entries the
    handler reads is stored, when the store takes it, as a ticket with no
    ticket id, a freshly generated number, the title [New ticket], an empty
    description, the status [new], the priority [medium], the estimated
    time [TBD] and empty tags, access and dependencies. *)
Theorem empty_confirmation_defaults (u : Z) (o : dict) (db : list ticket) :
  (forall k, k ∈ [ "ticket_id"; "ticket_number"; "task"; "title";
                   "edited_description"; "edited_priority"; "estimate" ] ->
             o !! k = None) ->
  let t := KanbanTicket JNull (JStr (generate_ticket_number u)) (JStr "New ticket")
             (JStr EmptyString) "new" "medium" (JStr "TBD")
             (JArr []) (JArr []) (JArr []) in
  new_ticket u (JObj o) = Ok t
  /\ (commit_error db t = None -> snd (create_final_ticket u (JObj o) db) = db ++ [t]).
Proof.
  intros Hnone t.
  assert (new_ticket u (JObj o) = Ok t) as Hnew.
  { unfold new_ticket. cbn [obj_get bind]. unfold get_default.
    rewrite !Hnone by (apply list_elem_of_In; cbn; tauto).
    reflexivity. }
  split; [exact Hnew|]. intros Hcommit.
  unfold create_final_ticket. rewrite Hnew, Hcommit. reflexivity.
Qed.

(** X14.  The body of a 200 answer of the estimate handler, sent back as it
    is to the ticket handler, gives a ticket with the same ticket id,
    ticket number and title, with the estimated time, labels, access and
    dependencies of the estimate, with an empty description and the status
    [new], and with the priority [medium], whatever priority the estimate
    has; the store gains this ticket when it takes it. *)
Theorem estimate_then_ticket (svc : service) (u u' : Z) (data : json)
    (db db' : list ticket) :
  http_status (fst (get_ai_estimate svc u data db)) = 200%Z ->
  exists b e t,
    body (fst (get_ai_estimate svc u data db)) = JObj b
    /\ b !! "estimate" = Some (JObj e)
    /\ new_ticket u' (JObj b) = Ok t
    /\ Some (ticket_id t) = b !! "ticket_id"
    /\ ticket_number t = JStr (generate_ticket_number u)
    /\ Some (title t) = b !! "title"
    /\ description t = JStr EmptyString
    /\ status t = "new"
    /\ priority t = "medium"
    /\ Some (estimated_time t) = e !! "estimated_time"
    /\ Some (tags t) = e !! "suggested_labels"
    /\ Some (access_required t) = e !! "required_access"
    /\ Some (dependencies t) = e !! "dependencies"
    /\ (commit_error db' t = None ->
        snd (create_final_ticket u' (JObj b) db') = db' ++ [t]).
Proof.
  intros H200.
  destruct (get_ai_estimate_200 svc u data db H200)
    as (o & raw & -> & Htask & Hne & Hsucc & ->).
  set (task := strip raw) in *. set (ai := fst (estimate_task svc task)).
  pose proof (short_title_join task 6 Hne) as Hshort.
  eexists _, _, _. split; [reflexivity|]. split; [reflexivity|].
  assert (forall tid tn est,
            new_ticket u' (JObj (response_data tid tn task ai est))
            = (short_title <- generate_short_title (JStr task) 6 ;;
               Ok (KanbanTicket (JStr tid)
                     (if nonempty tn then JStr tn else JStr (generate_ticket_number u'))
                     (get_default "title" (JStr task) ai) (JStr EmptyString)
                     "new" "medium"
                     (get_default "estimated_time" (JStr "TBD") est)
                     (get_default "suggested_labels" (JArr []) est)
                     (get_default "required_access" (JArr []) est)
                     (get_default "dependencies" (JArr []) est)))) as Hnew.
  { intros tid tn est. unfold new_ticket. cbn [obj_get bind].
    change (get_default "task" (JStr "New Ticket") (response_data tid tn task ai est))
      with (JStr task).
    destruct (generate_short_title (JStr task) 6); reflexivity. }
  split.
  { rewrite Hnew, Hshort. cbn [bind]. reflexivity. }
  repeat (split; [reflexivity|]).
  intros Hcommit. unfold create_final_ticket.
  rewrite Hnew, Hshort. cbn [bind].
  change (nonempty (generate_ticket_number u)) with true in Hcommit |- *.
  cbn iota in Hcommit |- *. rewrite Hcommit. reflexivity.
Qed.

End TicketHandler.

(* ===================================================================== *)
(** ** More on the estimator *)
(* ===================================================================== *)

Section Substrings.
Import Py Value Shape AIServices.

Lemma startswith_split (p s : string) :
  startswith p s = true -> s = p +:+ drop (String.length p) s.
Proof.
  unfold startswith. revert s. induction p as [|c p IH]; intros s.
  - intros _. destruct s; reflexivity.
  - destruct s as [|x s]; cbn [String.prefix]; [discriminate|].
    destruct (ascii_dec c x) as [->|]; [|discriminate].
    intros Hp. rewrite string_app_cons. cbn [String.length drop].
    rewrite <- (IH s Hp). reflexivity.
Qed.

(** [p in s] holds exactly when [s] has [p] somewhere inside. *)
Lemma contains_iff (p s : string) :
  contains p s = true <-> exists a b, s = a +:+ p +:+ b.
Proof.
  split.
  - induction s as [|c s IH]; cbn [contains]; intros [Hp | Hin]%orb_true_iff.
    + exists EmptyString, (drop (String.length p) EmptyString).
      exact (startswith_split p _ Hp).
    + discriminate.
    + exists EmptyString, (drop (String.length p) (String c s)).
      exact (startswith_split p _ Hp).
    + destruct (IH Hin) as (a & b & ->). exists (String c a), b. reflexivity.
  - intros (a & b & ->). induction a as [|c a IH].
    + rewrite string_app_empty_l.
      assert (startswith p (p +:+ b) = true) as Hp by apply startswith_app.
      unfold startswith in Hp. destruct (p +:+ b); cbn [contains]; rewrite Hp;
        reflexivity.
    + rewrite string_app_cons. cbn [contains]. rewrite IH. apply orb_true_r.
Qed.

(** X15.  A failure counts as unavailability exactly when its text has
    [503] or [UNAVAILABLE] somewhere inside, in this spelling; the class of
    the exception plays no part. *)
Theorem unavailable_by_text (e : exn) :
  is_unavailable e = true
  <-> exists before after,
        exn_msg e = before +:+ "503" +:+ after
        \/ exn_msg e = before +:+ "UNAVAILABLE" +:+ after.
Proof.
  unfold is_unavailable. rewrite orb_true_iff, !contains_iff. split.
  - intros [(a & b & Hm) | (a & b & Hm)]; exists a, b; auto.
  - intros (a & b & [Hm | Hm]); [left|right]; eauto.
Qed.

End Substrings.

Section EstimatorOutcomes.
Import Py Value Shape AIServices.
Context {json_lib : JsonLib}.

Lemma normalise_parsed_not_object (v : json) :
  (forall o, v <> JObj o) -> exists e, normalise_parsed v = Raise e.
Proof.
  intros Hno. destruct v as [| | |s|l|o]; cbn [normalise_parsed]; eauto.
  - destruct (contains _ s); eauto.
  - destruct (existsb _ l); eauto.
  - exfalso. exact (Hno o eq_refl).
Qed.

(** X16.  Whatever the endpoint does, the estimate is the failure estimate
    of some error, the fallback estimate of the task, or the defaults
    overridden by a parsed object; in each case it has a [success] and a
    [title] entry, and its [required_access] is never a bare string. *)
Theorem estimate_task_invariant (svc : service) (task : string) :
  let est := fst (estimate_task svc task) in
  ((exists e, est = failure_estimate e)
   \/ est = fallback_estimate task
   \/ exists o, est = success_estimate (wrap_required_access o))
  /\ is_Some (est !! "success")
  /\ is_Some (est !! "title")
  /\ forall s, est !! "required_access" <> Some (JStr s).
Proof.
  cbn zeta.
  assert ((exists e, fst (estimate_task svc task) = failure_estimate e)
          \/ fst (estimate_task svc task) = fallback_estimate task
          \/ exists o, fst (estimate_task svc task)
                       = success_estimate (wrap_required_access o)) as Hcases.
  { rewrite estimate_task_outcome.
    destruct (fst (generate_with_retry svc task)) as [[text|]|e]; eauto.
    destruct (json_loads (strip_fences (strip text))) as [v|]; eauto.
    destruct v; cbn [normalise_parsed try_except]; eauto.
    - destruct (contains _ _); cbn [try_except]; eauto.
    - destruct (existsb _ _); cbn [try_except]; eauto. }
  split; [exact Hcases|].
  destruct Hcases as [(e & ->) | [-> | (o & ->)]].
  - repeat split; try (eexists; reflexivity). intros s. discriminate.
  - repeat split; try (eexists; reflexivity). intros s. discriminate.
  - rewrite !success_estimate_lookup, !wrap_required_access_lookup.
    split; [destruct (o !! "success"); cbn; eauto|].
    split; [destruct (o !! "title"); cbn; eauto|].
    intros s. destruct (o !! "required_access") as [[]|]; cbn; discriminate.
Qed.

(** X17.  A reply that is valid JSON but no object (an array, a string, a
    number, a literal) is treated like a failed invocation: the estimate is
    the failure estimate, tagged success=false, with the text of the type or
    attribute error in its [error] entry. *)
Theorem non_object_reply_fails (svc : service) (task text : string) (v : json) :
  fst (generate_with_retry svc task) = Ok (Some text) ->
  json_loads (strip_fences (strip text)) = Some v ->
  (forall o, v <> JObj o) ->
  exists e,
    normalise_parsed v = Raise e
    /\ fst (estimate_task svc task) = failure_estimate e
    /\ fst (estimate_task svc task) !! "success" = Some (JBool false)
    /\ fst (estimate_task svc task) !! "error"
       = Some (JStr ("AI Generation failed: " +:+ exn_msg e)).
Proof.
  intros Hrun Hjson Hno.
  destruct (normalise_parsed_not_object v Hno) as (e & He).
  exists e. rewrite estimate_task_outcome, Hrun, Hjson, He.
  repeat split; reflexivity.
Qed.

(** X18.  A response of the model without text is treated like a failed
    invocation as well: stripping the missing text raises, and the estimate
    is the failure estimate of that attribute error. *)
Theorem missing_text_fails (svc : service) (task : string) :
  fst (generate_with_retry svc task) = Ok None ->
  fst (estimate_task svc task) = failure_estimate (AttributeError JNull "strip")
  /\ fst (estimate_task svc task) !! "error"
     = Some (JStr "AI Generation failed: 'NoneType' object has no attribute 'strip'").
Proof.
  intros Hrun. rewrite estimate_task_outcome, Hrun. split; reflexivity.
Qed.

(** X19.  One estimation sleeps at most twice and at most 6 time units in
    all, and it does not sleep at all exactly when the first call of the
    endpoint is not an unavailability failure. *)
Theorem sleep_budget (svc : service) (task : string) :
  let slept := snd (estimate_task svc task) in
  (slept = [] \/ slept = [2%Z] \/ slept = [2; 4]%Z)
  /\ (total slept <= 6)%Z
  /\ (slept = []
      <-> ~ exists e, svc 0 task = Raise e /\ is_unavailable e = true).
Proof.
  cbn zeta. rewrite estimate_task_slept.
  destruct (generate_with_retry_spec svc task)
    as (k & Hk & Hbefore & Hrun & Hstop).
  rewrite Hrun. cbn [snd]. unfold max_retries in Hk.
  destruct k as [|[|[|k]]]; [| | |lia];
    [change (backoff initial_retry_delay 0) with (@nil Z)
    |change (backoff initial_retry_delay 1) with [2%Z]
    |change (backoff initial_retry_delay 2) with [2; 4]%Z].
  - split; [left; reflexivity|]. split; [cbn; lia|]. split; [|reflexivity].
    intros _ (e & He & Hu).
    destruct Hstop as [(r & Hr) | (e' & He' & [Hkind | Hlast])];
      [congruence| |discriminate].
    rewrite He in He'. injection He' as <-. congruence.
  - split; [right; left; reflexivity|]. split; [cbn; lia|].
    split; [discriminate|].
    intros Hno. exfalso. apply Hno. apply (Hbefore 0). lia.
  - split; [right; right; reflexivity|]. split; [cbn; lia|].
    split; [discriminate|].
    intros Hno. exfalso. apply Hno. apply (Hbefore 0). lia.
Qed.

End EstimatorOutcomes.

Section FenceEdges.
Import Py Value Shape AIServices.

Variables ws body : string.
Hypothesis blank_ws : blank ws = true.
Hypothesis ends : plain_ends body = true.





End FenceEdges.

Section FenceTags.
Import Py Value Shape AIServices.




End FenceTags.

Section ComputedTitle.
Import Py Value Shape AITaskCreator.

(** X22.  On ASCII texts the title that the estimate handler computes at
    lines 101-107 follows the word-count policy: a candidate string of three
    to six words is kept, stripped; for any other candidate (no string,
    fewer or more words) and a non-empty task the title is made of the first
    six words of the task, the first capitalized and the others
    lower-cased. *)
Theorem computed_title_policy (raw_title : json) (task : string) :
  (forall s, raw_title = JStr s -> is_ascii s = true ->
     3 <= word_count s <= 6 ->
     resolve_title raw_title task = Ok (strip s)
     /\ word_count (strip s) = word_count s)
  /\ ((forall s, raw_title = JStr s ->
                 is_ascii s = true /\ ~ 3 <= word_count s <= 6) ->
      nonempty task = true -> is_ascii task = true ->
      resolve_title raw_title task
      = Ok (join " " (title_words (firstn 6 (split task))))).
Proof.
  destruct (resolve_title_policy raw_title task) as (Hkeep & Hderive).
  split.
  - intros s Hs _ Hwc. split; [exact (Hkeep s Hs Hwc)|].
    unfold word_count. rewrite split_strip. reflexivity.
  - intros Hout Hne _.
    rewrite (Hderive (fun s Hs => proj2 (Hout s Hs))), Hne.
    pose proof (short_title_join task 6 Hne) as Hshort.
    unfold generate_short_title in Hshort. cbn [truthy] in Hshort.
    rewrite Hne in Hshort. cbn [negb as_str bind] in Hshort. exact Hshort.
Qed.

End ComputedTitle.

(* ===================================================================== *)
(** ** More runs *)
(* ===================================================================== *)

Section MoreRuns.
Import Py Value Shape AIServices AITaskCreator Examples.

(** A task over two lines and with an acronym. *)
Lemma short_title_words_run :
  nonempty ("  fix the  API" +:+ nl +:+ "login bug in the mobile client") = true
  /\ is_ascii ("  fix the  API" +:+ nl +:+ "login bug in the mobile client") = true
  /\ exists t,
       generate_short_title
         (JStr ("  fix the  API" +:+ nl +:+ "login bug in the mobile client")) 6 = Ok t
       /\ t = "Fix the api login bug in"
       /\ word_count t <= 6.
Proof.
  split; [reflexivity|]. split; [reflexivity|].
  destruct (short_title_words
              ("  fix the  API" +:+ nl +:+ "login bug in the mobile client") 6
              eq_refl eq_refl)
    as (t & Ht & Heq & _ & Hwc).
  exists t. split; [exact Ht|]. split; [exact Heq|exact Hwc].
Defined.

Lemma short_title_of_nothing_run :
  generate_short_title JNull 6 = Ok "New Ticket"
  /\ generate_short_title (JStr ("  " +:+ nl)) 6 = Ok EmptyString.
Proof.
  destruct (short_title_of_nothing 6) as (Hfalsy & Hblank).
  split; [exact (Hfalsy JNull eq_refl)|exact (Hblank ("  " +:+ nl) eq_refl eq_refl)].
Defined.

Lemma ticket_number_top_bits_run :
  (0 / 2 ^ 96 = (2 ^ 96 - 1) / 2 ^ 96)%Z
  /\ generate_ticket_number 0 = generate_ticket_number (2 ^ 96 - 1).
Proof.
  assert (0 / 2 ^ 96 = (2 ^ 96 - 1) / 2 ^ 96)%Z as Htop by (vm_compute; reflexivity).
  split; [exact Htop|].
  exact (proj2 (ticket_number_top_bits 0 (2 ^ 96 - 1)) Htop).
Defined.

Lemma blank_task_rejected_run :
  http_status (estimate (answers json_login) ("  " +:+ nl)) = 400%Z.
Proof.
  unfold estimate, request.
  rewrite (@blank_task_rejected MiniJson.loads digest_id (answers json_login) 255
             {[ "task" := JStr ("  " +:+ nl) ]} []);
    [reflexivity|].
  right. exists ("  " +:+ nl). split; vm_compute; reflexivity.
Defined.

Lemma ill_typed_request_fails_run :
  fst (@get_ai_estimate MiniJson.loads digest_id (answers json_login) 255
         (JArr []) [])
  = error_response 500 (JStr "'list' object has no attribute 'get'")
  /\ fst (@get_ai_estimate MiniJson.loads digest_id (answers json_login) 255
            (JObj {[ "task" := JNum 7 ]}) [])
     = error_response 500 (JStr "'int' object has no attribute 'strip'").
Proof.
  split.
  - rewrite (proj1 (@ill_typed_request_fails MiniJson.loads digest_id
                      (answers json_login) 255 (JArr []) []));
      [reflexivity|discriminate].
  - rewrite (proj2 (@ill_typed_request_fails MiniJson.loads digest_id
                      (answers json_login) 255 (JObj {[ "task" := JNum 7 ]}) [])
               {[ "task" := JNum 7 ]} (JNum 7) eq_refl);
      [reflexivity|vm_compute; reflexivity|reflexivity].
Defined.

Lemma unsliceable_reasoning_fails_run :
  MiniJson.loads json_numeric_reasoning = Some (JObj numeric_reasoning_object)
  /\ exists m,
       @get_ai_estimate MiniJson.loads digest_id (answers json_numeric_reasoning) 255
         (request task_login) []
       = (error_response 500 (JStr m), []).
Proof.
  assert (MiniJson.loads json_numeric_reasoning = Some (JObj numeric_reasoning_object))
    as Hjson by (vm_compute; reflexivity).
  split; [exact Hjson|].
  refine (proj2 (@unsliceable_reasoning_fails MiniJson.loads digest_id
                   (answers json_numeric_reasoning) 255 {[ "task" := JStr task_login ]}
                   task_login json_numeric_reasoning [] numeric_reasoning_object
                   (JNum 5) _ _ _ _ _ _)); vm_compute; reflexivity.
Defined.

Lemma reply_success_false_fails_run :
  @get_ai_estimate MiniJson.loads digest_id (answers json_success_false) 255
    (request task_login) []
  = (error_response 500 (JStr "quota"), []).
Proof.
  unfold request.
  rewrite (@reply_success_false_fails MiniJson.loads digest_id
             (answers json_success_false) 255 {[ "task" := JStr task_login ]}
             task_login json_success_false [] success_false_object (JBool false));
    vm_compute; reflexivity.
Defined.

Lemma ill_typed_confirmation_fails_run :
  exists e,
    confirm (JObj (<["edited_priority" := JNull]> (<["title" := JStr "Fix login"]> ∅))) []
    = (error_response 500 (JStr (exn_msg e)), []).
Proof.
  apply (@ill_typed_confirmation_fails open_store 255).
  left. exists JNull. split; vm_compute; reflexivity.
Defined.

Lemma non_string_task_fails_run :
  confirm (JObj (<["task" := JNum 7]> (<["title" := JStr "Fix login"]> ∅))) []
  = (error_response 500 (JStr "'int' object has no attribute 'replace'"), []).
Proof.
  unfold confirm.
  rewrite (@non_string_task_fails open_store 255 _ [] (JNum 7));
    vm_compute; reflexivity.
Defined.

Lemma empty_confirmation_defaults_run :
  exists t,
    snd (confirm (JObj ∅) []) = [t]
    /\ title t = JStr "New ticket"
    /\ priority t = "medium"
    /\ estimated_time t = JStr "TBD".
Proof.
  destruct (@empty_confirmation_defaults open_store 255 ∅ [])
    as (_ & Hstore); [intros k _; apply lookup_empty|].
  eexists. split; [exact (Hstore eq_refl)|]. repeat split; reflexivity.
Defined.

Lemma estimate_then_ticket_run :
  http_status (estimate (answers (fenced "```json" json_login)) task_login) = 200%Z
  /\ exists t,
       snd (confirm (body (estimate (answers (fenced "```json" json_login)) task_login)) [])
       = [t]
       /\ title t = JStr "Add user email login"
       /\ ticket_number t = JStr (generate_ticket_number 255)
       /\ priority t = "medium".
Proof.
  assert (http_status (estimate (answers (fenced "```json" json_login)) task_login)
          = 200%Z) as H200 by (vm_compute; reflexivity).
  split; [exact H200|].
  destruct (@estimate_then_ticket MiniJson.loads digest_id open_store
              (answers (fenced "```json" json_login)) 255 255
              (request task_login) [] [] H200)
    as (b & e & t & Hb & _ & _ & _ & Hnum & Htitle & _ & _ & Hprio & _ & _ & _ & _
        & Hstore).
  exists t. unfold confirm, estimate in *. rewrite Hb.
  split; [exact (Hstore eq_refl)|].
  split; [|split; [exact Hnum|exact Hprio]].
  assert (b !! "title" = Some (JStr "Add user email login")) as Hbt
    by (vm_compute in Hb; injection Hb as <-; reflexivity).
  rewrite Hbt in Htitle. injection Htitle as ->. reflexivity.
Defined.

Lemma non_object_reply_fails_run :
  MiniJson.loads json_array = Some (JArr [JNum 1; JNum 2])
  /\ fst (@estimate_task MiniJson.loads (answers json_array) task_login) !! "error"
     = Some (JStr "AI Generation failed: 'list' object has no attribute 'get'").
Proof.
  assert (MiniJson.loads (strip_fences (strip json_array))
          = Some (JArr [JNum 1; JNum 2])) as Hjson by (vm_compute; reflexivity).
  split; [exact Hjson|].
  destruct (@non_object_reply_fails MiniJson.loads (answers json_array) task_login
              json_array (JArr [JNum 1; JNum 2]) eq_refl Hjson)
    as (e & He & _ & _ & Herr); [discriminate|].
  rewrite Herr. cbn in He. injection He as <-. reflexivity.
Defined.

Lemma missing_text_fails_run :
  fst (@estimate_task MiniJson.loads silent task_login) !! "success"
  = Some (JBool false).
Proof.
  rewrite (proj1 (@missing_text_fails MiniJson.loads silent task_login eq_refl)).
  reflexivity.
Defined.



Lemma computed_title_policy_run :
  resolve_title (JStr " Add user email login ") task_login = Ok "Add user email login"
  /\ resolve_title (JStr "Fix") task_login = Ok "Add user login with email and".
Proof.
  split.
  - refine (proj1 (proj1 (computed_title_policy (JStr " Add user email login ")
                            task_login) " Add user email login " eq_refl eq_refl _)).
    vm_compute. split; lia.
  - rewrite (proj2 (computed_title_policy (JStr "Fix") task_login));
      [reflexivity| |reflexivity|reflexivity].
    intros s [= <-]. split; [reflexivity|]. vm_compute. lia.
Defined.


Lemma unavailable_by_text_run :
  is_unavailable (Exn "ClientError" "quota exceeded, request id 15039") = true.
Proof.
  apply (proj2 (unavailable_by_text (Exn "ClientError" "quota exceeded, request id 15039"))).
  exists "quota exceeded, request id 1", "9". left. reflexivity.
Defined.

Lemma estimate_task_invariant_run :
  is_Some (fst (@estimate_task MiniJson.loads (answers json_login) task_login)
             !! "success")
  /\ fst (@estimate_task MiniJson.loads (answers json_login) task_login)
       !! "required_access"
     <> Some (JStr "GitHub Repository Write Access").
Proof.
  destruct (@estimate_task_invariant MiniJson.loads (answers json_login) task_login)
    as (_ & Hsucc & _ & Hra).
  split; [exact Hsucc|apply Hra].
Defined.

Lemma sleep_budget_run :
  snd (@estimate_task MiniJson.loads refuses task_login) = []
  /\ (total (snd (@estimate_task MiniJson.loads down task_login)) <= 6)%Z.
Proof.
  split.
  - apply (proj2 (proj2 (@sleep_budget MiniJson.loads refuses task_login))).
    intros (e & [= <-] & Hu). discriminate.
  - exact (proj1 (proj2 (@sleep_budget MiniJson.loads down task_login))).
Defined.

End MoreRuns.
